(** * UPI fraud detection: the rule-based scoring engine

    A shallow embedding of the three rule engines of the repository
    and of the configuration they are meant to follow:

    - [App]   : [FallbackScorer] of [app.py] (the Streamlit front end);
    - [Demo]  : [FallbackScorer] of [scripts/04_run_demo.py];
    - [Train] : [RuleBasedFraudDetector] and [SimpleScorer] of
                [scripts/03_train_models.py];
    - [Config]: [RISK_LEVELS] of [config.py].

    A transaction is a Python dictionary from field names to dynamically
    typed values.  Python exceptions are modelled with an error monad:
    ordering a string or [None] against a number raises [TypeError],
    calling [.get] on something that is not a dictionary raises
    [AttributeError], formatting an integer of more than 4300 decimal
    digits raises [ValueError]. *)

From Stdlib Require Import ZArith String List Floats Uint63 DecimalString DecimalNat DecimalZ Lia.
From stdpp Require Import gmap strings.

Local Open Scope Z_scope.

(** ** Python values and exceptions *)

Inductive value : Type :=
| VInt (n : Z)
| VFloat (f : float)
| VBool (b : bool)
| VStr (s : string)
| VNone.

(** What a scorer may be handed as a "transaction": a dictionary, or any
    other object (which has no [get] method). *)
Inductive pyobj : Type :=
| Dict (d : gmap string value)
| Scalar (v : value).

Inductive exn : Type := TypeError | AttributeError | ValueError.

Inductive result (A : Type) : Type :=
| Ok (a : A)
| Raise (e : exn).
Arguments Ok {A} a.
Arguments Raise {A} e.

Definition bind {A B : Type} (m : result A) (k : A → result B) : result B :=
  match m with
  | Ok a => k a
  | Raise e => Raise e
  end.

Notation "x <- m ;; k" := (bind m (fun x => k))
  (at level 100, m at next level, right associativity).

Definition is_ok {A} (m : result A) : bool :=
  match m with Ok _ => true | Raise _ => false end.

(** [bool] is a subclass of [int]: [True] is 1 and [False] is 0. *)
Definition bool_int (b : bool) : Z := if b then 1 else 0.

(** The integer constants the rules compare against (50000, 10000, 22,
    12, 6, 5, 1) are all exactly representable as binary64 floats, so
    Python's exact int/float comparison is the float comparison against
    the converted constant. *)
Definition float_of_int (c : Z) : float := PrimFloat.of_uint63 (Uint63.of_Z c).

(** [v > c] *)
Definition py_gt (v : value) (c : Z) : result bool :=
  match v with
  | VInt n => Ok (c <? n)
  | VBool b => Ok (c <? bool_int b)
  | VFloat f => Ok (PrimFloat.ltb (float_of_int c) f)
  | VStr _ | VNone => Raise TypeError
  end.

(** [v < c] *)
Definition py_lt (v : value) (c : Z) : result bool :=
  match v with
  | VInt n => Ok (n <? c)
  | VBool b => Ok (bool_int b <? c)
  | VFloat f => Ok (PrimFloat.ltb f (float_of_int c))
  | VStr _ | VNone => Raise TypeError
  end.

(** [v == c]: never raises; values of unrelated types are unequal. *)
Definition py_eq (v : value) (c : Z) : bool :=
  match v with
  | VInt n => n =? c
  | VBool b => bool_int b =? c
  | VFloat f => PrimFloat.eqb f (float_of_int c)
  | VStr _ | VNone => false
  end.

(** [o.get(k, default)] *)
Definition get (o : pyobj) (k : string) (default : value) : result value :=
  match o with
  | Dict d => Ok (match d !! k with Some v => v | None => default end)
  | Scalar _ => Raise AttributeError
  end.

(** ** String formatting *)

Definition str_int (n : Z) : string := NilZero.string_of_int (Z.to_int n).
Definition str_nat (i : nat) : string := NilZero.string_of_uint (Nat.to_uint i).

Fixpoint zeros (n : nat) : string :=
  match n with
  | O => ""
  | S n' => "0" +:+ zeros n'
  end.

(** [f'{i:06d}'] for an index [i >= 0]: zero-filled to a width of 6. *)
Definition fmt_06d (i : nat) : string :=
  let s := str_nat i in zeros (6 - String.length s) +:+ s.

(** [sys.get_int_max_str_digits()]: the interpreter refuses to convert
    an [int] with more decimal digits than this (the sign not counted)
    to a string.  4300 is the interpreter's default, which the project
    (Python 3.12, as [app.py] says) never changes. *)
Definition int_max_str_digits : Z := 4300.

Definition int_digits (n : Z) : Z :=
  Z.of_nat (String.length (str_int (Z.abs n))).

Definition int_printable (n : Z) : bool :=
  int_digits n <=? int_max_str_digits.

Section Formatting.
(** [repr] of a float is the interpreter's (shortest round-trip
    decimal); it is taken as a parameter. *)
Variable float_repr : float → string.

(** [f'{v}']: raises [ValueError] on an [int] beyond the digit limit. *)
Definition py_str (v : value) : result string :=
  match v with
  | VInt n => if int_printable n then Ok (str_int n) else Raise ValueError
  | VFloat f => Ok (float_repr f)
  | VBool b => Ok (if b then "True" else "False")
  | VStr s => Ok s
  | VNone => Ok "None"
  end.
End Formatting.

(** ** Risk tiers *)

Inductive tier : Type := LOW | MEDIUM | HIGH.

Definition tier_name (l : tier) : string :=
  match l with LOW => "LOW" | MEDIUM => "MEDIUM" | HIGH => "HIGH" end.

(** ** config.py *)
Module Config.

(** [RISK_LEVELS]: tier name to [(low, high)] pair. *)
Definition RISK_LEVELS : list (tier * (Z * Z)) :=
  [ (LOW, (0, 40)); (MEDIUM, (40, 70)); (HIGH, (70, 100)) ].

End Config.

(** ** Rule tables and the loop that applies them

    [scripts/04_run_demo.py] and [scripts/03_train_models.py] keep
    their rules in a list and walk it with the same [for] loop. *)

Record rule : Type := Rule {
  description : string;
  condition : pyobj → result bool;
  points : Z
}.

(** [for rule in rules: if condition(transaction): score += points;
    reasons.append(description)] *)
Fixpoint apply_rules (rules : list rule) (transaction : pyobj)
    (score : Z) (reasons : list string) : result (Z * list string) :=
  match rules with
  | [] => Ok (score, reasons)
  | r :: rest =>
      hit <- condition r transaction;;
      if hit
      then apply_rules rest transaction (score + points r) (reasons ++ [description r])
      else apply_rules rest transaction score reasons
  end.

(** [result['explanations'][0] if result['explanations'] else
    'No specific risk factors'] *)
Definition top_reason_of (explanations : list string) : string :=
  match explanations with
  | first :: _ => first
  | [] => "No specific risk factors"
  end.

(** ** app.py: FallbackScorer *)
Module App.

Record breakdown_t : Type := {
  rule_engine_score : Z;
  ml_probability : float;
  anomaly_score : Z
}.

Record score_result : Type := {
  risk_score : Z;
  risk_level : tier;
  suggested_action : string;
  explanations : list string;
  breakdown : breakdown_t
}.

Record batch_row : Type := {
  transaction_id : value;
  amount : value;
  row_risk_score : Z;
  row_risk_level : tier;
  row_suggested_action : string;
  top_reason : string
}.

(** Rule 1: Amount based ([if] / [elif]). *)
Definition rule_amount (transaction : pyobj) (st : Z * list string)
    : result (Z * list string) :=
  let '(score, reasons) := st in
  amount <- get transaction "amount" (VInt 0);;
  gt50000 <- py_gt amount 50000;;
  if gt50000
  then Ok (score + 40, reasons ++ ["Amount > ‚Çπ50,000"])
  else
    gt10000 <- py_gt amount 10000;;
    if gt10000
    then Ok (score + 30, reasons ++ ["Amount > ‚Çπ10,000"])
    else Ok (score, reasons).

(** Rule 2: Time based. *)
Definition rule_time (transaction : pyobj) (st : Z * list string)
    : result (Z * list string) :=
  let '(score, reasons) := st in
  hour <- get transaction "hour" (VInt 12);;
  lt6 <- py_lt hour 6;;
  if lt6
  then Ok (score + 25, reasons ++ ["Late night transaction (12AM-6AM)"])
  else Ok (score, reasons).

Section WithRepr.
Variable float_repr : float → string.

(** Rule 3: Velocity. *)
Definition rule_velocity (transaction : pyobj) (st : Z * list string)
    : result (Z * list string) :=
  let '(score, reasons) := st in
  txns_last_1h <- get transaction "txns_last_1h" (VInt 0);;
  gt5 <- py_gt txns_last_1h 5;;
  if gt5
  then
    shown <- py_str float_repr txns_last_1h;;
    Ok (score + 30,
        reasons ++ ["High velocity (" +:+ shown +:+ " transactions/hour)"])
  else Ok (score, reasons).

(** Rule 4: New recipient. *)
Definition rule_new_recipient (transaction : pyobj) (st : Z * list string)
    : result (Z * list string) :=
  let '(score, reasons) := st in
  is_new <- get transaction "is_new_recipient" (VInt 0);;
  if py_eq is_new 1
  then Ok (score + 25, reasons ++ ["First time sending to this recipient"])
  else Ok (score, reasons).

(** The four rule blocks in sequence, from [score = 0; reasons = []]
    up to (not including) [score = min(score, 100)]. *)
Definition raw_score (transaction : pyobj) : result (Z * list string) :=
  st <- rule_amount transaction (0, []);;
  st <- rule_time transaction st;;
  st <- rule_velocity transaction st;;
  rule_new_recipient transaction st.

(** "Determine risk level" *)
Definition classify (score : Z) : tier * string :=
  if 70 <=? score then (HIGH, "BLOCK - Requires additional verification")
  else if 40 <=? score then (MEDIUM, "WARN - Review recommended")
  else (LOW, "ALLOW - Appears legitimate").

Definition calculate_final_score (transaction : pyobj) : result score_result :=
  st <- raw_score transaction;;
  let '(score, reasons) := st in
  let score := Z.min score 100 in
  let '(level, action) := classify score in
  Ok {| risk_score := score;
        risk_level := level;
        suggested_action := action;
        explanations := reasons;
        breakdown := {| rule_engine_score := score;
                        ml_probability := 0.5%float;
                        anomaly_score := 0 |} |}.

(** [for i, txn in enumerate(transactions)], from index [i] on. *)
Fixpoint analyze_batch_from (i : nat) (transactions : list pyobj)
    : result (list batch_row) :=
  match transactions with
  | [] => Ok []
  | txn :: rest =>
      res <- calculate_final_score txn;;
      tid <- get txn "transaction_id" (VStr ("TXN_" +:+ fmt_06d i));;
      amt <- get txn "amount" (VInt 0);;
      rows <- analyze_batch_from (S i) rest;;
      Ok ({| transaction_id := tid;
             amount := amt;
             row_risk_score := risk_score res;
             row_risk_level := risk_level res;
             row_suggested_action := suggested_action res;
             top_reason := top_reason_of (explanations res) |} :: rows)
  end.

Definition analyze_batch (transactions : list pyobj) : result (list batch_row) :=
  analyze_batch_from 0 transactions.
(** *** The same four blocks read as a rule table

    The evaluators of [calculate_final_score] in declaration order, in
    the (description, condition, points) shape of the other two
    engines.  The [elif] makes the second amount evaluator fire only
    when the first does not; the velocity description interpolates the
    transaction's count, and the velocity evaluator fails where that
    count cannot be formatted.  [raw_score_as_table] below shows that
    the code computes exactly the loop over this table. *)
Definition e_amount_gt_50000 : rule :=
  Rule "Amount > ‚Çπ50,000"
    (fun x => v <- get x "amount" (VInt 0);; py_gt v 50000) 40.

Definition e_amount_gt_10000 : rule :=
  Rule "Amount > ‚Çπ10,000"
    (fun x => v <- get x "amount" (VInt 0);;
              gt50000 <- py_gt v 50000;;
              if gt50000 then Ok false else py_gt v 10000) 30.

Definition e_hour_lt_6 : rule :=
  Rule "Late night transaction (12AM-6AM)"
    (fun x => v <- get x "hour" (VInt 12);; py_lt v 6) 25.

Definition velocity_description (transaction : pyobj) : string :=
  match (n <- get transaction "txns_last_1h" (VInt 0);; py_str float_repr n) with
  | Ok shown => "High velocity (" +:+ shown +:+ " transactions/hour)"
  | Raise _ => ""
  end.

Definition e_high_velocity (transaction : pyobj) : rule :=
  Rule (velocity_description transaction)
    (fun x => v <- get x "txns_last_1h" (VInt 0);;
              gt5 <- py_gt v 5;;
              if gt5 then (_ <- py_str float_repr v;; Ok true) else Ok false) 30.

Definition e_new_recipient : rule :=
  Rule "First time sending to this recipient"
    (fun x => v <- get x "is_new_recipient" (VInt 0);; Ok (py_eq v 1)) 25.

Definition declared_rules (transaction : pyobj) : list rule :=
  [ e_amount_gt_50000; e_amount_gt_10000; e_hour_lt_6;
    e_high_velocity transaction; e_new_recipient ].

End WithRepr.

End App.

(** ** scripts/04_run_demo.py: FallbackScorer *)
Module Demo.

Record score_result : Type := {
  risk_score : Z;
  risk_level : tier;
  suggested_action : string;
  explanations : list string
}.

Record batch_row : Type := {
  transaction_id : value;
  row_risk_score : Z;
  row_risk_level : tier;
  row_suggested_action : string;
  top_reason : string
}.

(** The six (description, condition, points) triples of [self.rules],
    named here after their conditions. *)
Definition r_amount_gt_50000 : rule :=
  Rule "Amount > ₹50,000"
    (fun x => v <- get x "amount" (VInt 0);; py_gt v 50000) 40.

Definition r_amount_gt_10000 : rule :=
  Rule "Amount > ₹10,000"
    (fun x => v <- get x "amount" (VInt 0);; py_gt v 10000) 30.

Definition r_hour_lt_6 : rule :=
  Rule "Late night (12AM-6AM)"
    (fun x => v <- get x "hour" (VInt 12);; py_lt v 6) 25.

Definition r_hour_gt_22 : rule :=
  Rule "Suspicious hours (10PM-12AM)"
    (fun x => v <- get x "hour" (VInt 12);; py_gt v 22) 20.

Definition r_new_recipient : rule :=
  Rule "New recipient"
    (fun x => v <- get x "is_new_recipient" (VInt 0);; Ok (py_eq v 1)) 25.

Definition r_high_velocity : rule :=
  Rule "High velocity"
    (fun x => v <- get x "txns_last_1h" (VInt 0);; py_gt v 5) 30.

(** [self.rules] *)
Definition rules : list rule :=
  [ r_amount_gt_50000; r_amount_gt_10000; r_hour_lt_6; r_hour_gt_22;
    r_new_recipient; r_high_velocity ].

(** The loop over [self.rules], from [score = 0; reasons = []] up to
    (not including) [score = min(score, 100)]. *)
Definition raw_score (transaction : pyobj) : result (Z * list string) :=
  apply_rules rules transaction 0 [].

(** "Determine risk level" *)
Definition classify (score : Z) : tier * string :=
  if 70 <=? score then (HIGH, "BLOCK - Requires additional verification")
  else if 40 <=? score then (MEDIUM, "WARN - Review recommended")
  else (LOW, "ALLOW - Appears legitimate").

Definition calculate_final_score (transaction : pyobj) : result score_result :=
  st <- raw_score transaction;;
  let '(score, reasons) := st in
  let score := Z.min score 100 in
  let '(level, action) := classify score in
  Ok {| risk_score := score;
        risk_level := level;
        suggested_action := action;
        explanations := take 3 reasons |}.

(** [for i, txn in enumerate(transactions)], from index [i] on. *)
Fixpoint analyze_batch_from (i : nat) (transactions : list pyobj)
    : result (list batch_row) :=
  match transactions with
  | [] => Ok []
  | txn :: rest =>
      res <- calculate_final_score txn;;
      tid <- get txn "transaction_id" (VStr ("TXN_" +:+ str_nat i));;
      rows <- analyze_batch_from (S i) rest;;
      Ok ({| transaction_id := tid;
             row_risk_score := risk_score res;
             row_risk_level := risk_level res;
             row_suggested_action := suggested_action res;
             top_reason := top_reason_of (explanations res) |} :: rows)
  end.

Definition analyze_batch (transactions : list pyobj) : result (list batch_row) :=
  analyze_batch_from 0 transactions.

End Demo.

(** ** scripts/03_train_models.py: RuleBasedFraudDetector, SimpleScorer *)
Module Train.

(** [self.thresholds], a dictionary with the three fixed keys. *)
Record thresholds_t : Type := {
  th_HIGH : Z;
  th_MEDIUM : Z;
  th_LOW : Z
}.

Record RuleBasedFraudDetector : Type := {
  rules : list rule;
  thresholds : thresholds_t
}.

Record predict_result : Type := {
  risk_score : Z;
  risk_level : tier;
  suggested_action : string;
  rules_triggered : list string
}.

Record batch_row : Type := {
  transaction_id : value;
  row_risk_score : Z;
  row_risk_level : tier;
  row_suggested_action : string
}.

Definition _check_amount_gt_50000 (transaction : pyobj) : result bool :=
  v <- get transaction "amount" (VInt 0);; py_gt v 50000.

Definition _check_amount_gt_10000 (transaction : pyobj) : result bool :=
  v <- get transaction "amount" (VInt 0);; py_gt v 10000.

Definition _check_hour_lt_6 (transaction : pyobj) : result bool :=
  v <- get transaction "hour" (VInt 12);; py_lt v 6.

Definition _check_hour_gt_22 (transaction : pyobj) : result bool :=
  v <- get transaction "hour" (VInt 12);; py_gt v 22.

Definition _check_amount_log_gt_12 (transaction : pyobj) : result bool :=
  v <- get transaction "amount_log" (VInt 0);; py_gt v 12.

(** The five entries of [self.rules]. *)
Definition r_amount_gt_50000 : rule :=
  {| condition := _check_amount_gt_50000; points := 40;
     description := "Amount > ₹50,000" |}.

Definition r_amount_gt_10000 : rule :=
  {| condition := _check_amount_gt_10000; points := 30;
     description := "Amount > ₹10,000" |}.

Definition r_hour_lt_6 : rule :=
  {| condition := _check_hour_lt_6; points := 25;
     description := "Transaction during late night (12AM-6AM)" |}.

Definition r_hour_gt_22 : rule :=
  {| condition := _check_hour_gt_22; points := 20;
     description := "Transaction during suspicious hours (10PM-12AM)" |}.

Definition r_amount_log_gt_12 : rule :=
  {| condition := _check_amount_log_gt_12; points := 35;
     description := "Exceptionally high amount" |}.

(** [RuleBasedFraudDetector.__init__]: takes no argument and checks
    nothing. *)
Definition init : RuleBasedFraudDetector :=
  {| rules := [ r_amount_gt_50000; r_amount_gt_10000; r_hour_lt_6;
                r_hour_gt_22; r_amount_log_gt_12 ];
     thresholds := {| th_HIGH := 70; th_MEDIUM := 40; th_LOW := 0 |} |}.

(** The loop over [self.rules], up to (not including) "Cap at 100". *)
Definition raw_score (self : RuleBasedFraudDetector) (transaction : pyobj)
    : result (Z * list string) :=
  apply_rules (rules self) transaction 0 [].

(** "Determine risk level", against [self.thresholds]. *)
Definition classify (self : RuleBasedFraudDetector) (total_score : Z) : tier * string :=
  if th_HIGH (thresholds self) <=? total_score
  then (HIGH, "BLOCK - Requires additional verification")
  else if th_MEDIUM (thresholds self) <=? total_score
  then (MEDIUM, "WARN - Review recommended")
  else (LOW, "ALLOW - Appears legitimate").

Definition predict (self : RuleBasedFraudDetector) (transaction : pyobj)
    : result predict_result :=
  st <- raw_score self transaction;;
  let '(total_score, triggered_rules) := st in
  let total_score := Z.min total_score 100 in
  let '(level, action) := classify self total_score in
  Ok {| risk_score := total_score;
        risk_level := level;
        suggested_action := action;
        rules_triggered := triggered_rules |}.

(** [SimpleScorer]: a wrapper around one model. *)
Record SimpleScorer : Type := { model : RuleBasedFraudDetector }.

Definition calculate_final_score (self : SimpleScorer) (transaction : pyobj)
    : result predict_result :=
  predict (model self) transaction.

(** [for i, txn in enumerate(transactions)], from index [i] on. *)
Fixpoint analyze_batch_from (self : SimpleScorer) (i : nat) (transactions : list pyobj)
    : result (list batch_row) :=
  match transactions with
  | [] => Ok []
  | txn :: rest =>
      res <- predict (model self) txn;;
      tid <- get txn "transaction_id" (VStr ("TXN_" +:+ str_nat i));;
      rows <- analyze_batch_from self (S i) rest;;
      Ok ({| transaction_id := tid;
             row_risk_score := risk_score res;
             row_risk_level := risk_level res;
             row_suggested_action := suggested_action res |} :: rows)
  end.

Definition analyze_batch (self : SimpleScorer) (transactions : list pyobj)
    : result (list batch_row) :=
  analyze_batch_from self 0 transactions.

End Train.

(** ** Startup: load_scorer of app.py and scripts/04_run_demo.py

    [stored] is what unpickling [models/scorer.pkl] yields, [None] when
    that raises; [03_train_models.py] writes [SimpleScorer(model)] there.
    Either way a scorer comes back: nothing is checked and nothing is
    raised. *)
Module Startup.

Inductive scorer : Type :=
| Loaded (s : Train.SimpleScorer)
| Fallback.

Definition load_scorer (stored : option Train.SimpleScorer) : scorer :=
  match stored with
  | Some s => Loaded s
  | None => Fallback
  end.

(** What [main] of [03_train_models.py] stores. *)
Definition trained : Train.SimpleScorer := {| Train.model := Train.init |}.

End Startup.

(** ** config.py: rule thresholds *)
Module ConfigRules.

(** [RULE_THRESHOLDS] *)
Definition velocity_1h : Z := 5.
Definition velocity_24h : Z := 20.
Definition new_recipient_amount_multiplier : Z := 3.
Definition micropay_threshold : Z := 10.
Definition time_suspicious_hours : list Z := [0; 1; 2; 3; 4; 5; 23].

End ConfigRules.

(** ** app.py: the pages around the scorer *)
Module Ui.

(** [render_single_check]: the [transaction_features] dictionary built
    from the widgets ([float(amount)], [int(hour)], [int(user_txns_1h)],
    the two checkboxes as 1 or 0). *)
Definition transaction_features (amount : float) (recipient : string)
    (transaction_type : string) (hour user_txns_1h : Z)
    (is_weekend is_new_recipient : bool) : gmap string value :=
  <["amount" := VFloat amount]>
  (<["recipient_id" := VStr recipient]>
  (<["hour" := VInt hour]>
  (<["txns_last_1h" := VInt user_txns_1h]>
  (<["is_new_recipient" := VInt (if is_new_recipient then 1 else 0)]>
  (<["is_weekend" := VInt (if is_weekend then 1 else 0)]>
  (<["transaction_type" := VStr transaction_type]> ∅)))))).

(** What the pages read from a result, whichever scorer made it:
    ['risk_score'], ['risk_level'], ['suggested_action'], and the risk
    factors listed (['explanations'], else ['rules_triggered']). *)
Record assessment : Type := {
  shown_score : Z;
  shown_level : tier;
  shown_action : string;
  shown_factors : list string
}.

Section WithRepr.
Variable float_repr : float → string.

(** [st.session_state.scorer.calculate_final_score(...)]: the method of
    whichever scorer [load_scorer] returned. *)
Definition calculate_final_score (scorer : Startup.scorer) (transaction : pyobj)
    : result assessment :=
  match scorer with
  | Startup.Fallback =>
      r <- App.calculate_final_score float_repr transaction;;
      Ok {| shown_score := App.risk_score r;
            shown_level := App.risk_level r;
            shown_action := App.suggested_action r;
            shown_factors := App.explanations r |}
  | Startup.Loaded s =>
      r <- Train.calculate_final_score s transaction;;
      Ok {| shown_score := Train.risk_score r;
            shown_level := Train.risk_level r;
            shown_action := Train.suggested_action r;
            shown_factors := Train.rules_triggered r |}
  end.

End WithRepr.

(** [display_single_result], "Score interpretation": the banner chosen
    from the score alone. *)
Definition score_interpretation (score : Z) : tier :=
  if score <? 40 then LOW
  else if score <? 70 then MEDIUM
  else HIGH.

(** [show_result]: the banner chosen from the score alone. *)
Definition show_result_banner (score : Z) : tier :=
  if 70 <=? score then HIGH
  else if 40 <=? score then MEDIUM
  else LOW.

End Ui.

(** ** app.py: reading an uploaded CSV without pandas

    [render_batch_analysis], from
    [lines = content.strip().split('\n')] on; a split always yields a
    first line. *)
Module Upload.

(** [s.split(sep)] for a separator of one character. *)
Fixpoint split_on (sep : Ascii.ascii) (s : string) : list string :=
  match s with
  | EmptyString => [EmptyString]
  | String c rest =>
      let parts := split_on sep rest in
      if Ascii.eqb c sep then EmptyString :: parts
      else match parts with
           | p :: ps => String c p :: ps
           | [] => [String c EmptyString]
           end
  end.

Definition comma : Ascii.ascii := Ascii.ascii_of_nat 44.

(** [dict(zip(headers, values))]: every value is a string; of two
    columns with the same header the later one stays. *)
Definition dict_zip (headers values : list string) : gmap string value :=
  fold_left (fun m kv => <[kv.1 := VStr kv.2]> m) (zip headers values) ∅.

(** [for line in lines[1:21]: values = line.split(',');
    if len(values) == len(headers): data.append(dict(zip(headers, values)))] *)
Definition parse_lines (first_line : string) (other_lines : list string)
    : list (gmap string value) :=
  let headers := split_on comma first_line in
  omap (fun line =>
          let values := split_on comma line in
          if decide (length values = length headers)
          then Some (dict_zip headers values)
          else None)
       (take 20 other_lines).

End Upload.

(** ** scripts/04_run_demo.py: load_sample_data

    A row of [csv.DictReader] maps each column to a string, or to
    [None] where the line was short. *)
Module DemoData.

Inductive cell : Type :=
| Text (s : string)
| Missing.

Definition cell_value (c : cell) : value :=
  match c with Text s => VStr s | Missing => VNone end.

Section WithFloatParser.
(** [float(s)] on a string is the interpreter's; [None] when it raises
    [ValueError]. *)
Variable float_of_string : string → option float.

(** [if key in ['amount', 'hour', 'is_fraud']: try: float(value)
    except: value; else: value] *)
Definition convert_cell (key : string) (c : cell) : value :=
  if bool_decide (key ∈ ["amount"; "hour"; "is_fraud"])
  then match c with
       | Text s => match float_of_string s with
                   | Some f => VFloat f
                   | None => VStr s
                   end
       | Missing => VNone
       end
  else cell_value c.

Definition convert_row (row : gmap string cell) : gmap string value :=
  map_imap (fun key c => Some (convert_cell key c)) row.

(** The rows of the file, converted in order. *)
Definition load_rows (rows : list (gmap string cell)) : list (gmap string value) :=
  convert_row <$> rows.

End WithFloatParser.

End DemoData.

(** ** scripts/02_create_features.py: create_simple_features_from_csv

    The rows are those of [csv.DictReader].  The conversions that
    belong to the interpreter and its library are parameters; each
    returns [None] where the Python call raises. *)
Module Features.

(** [timestamp.replace('Z', '+00:00')] *)
Fixpoint replace_Z (s : string) : string :=
  match s with
  | EmptyString => EmptyString
  | String c rest =>
      if Ascii.eqb c (Ascii.ascii_of_nat 90)
      then "+00:00" +:+ replace_Z rest
      else String c (replace_Z rest)
  end.

Section WithLibrary.
(** [float(s)] and [int(s)] on a string. *)
Variable float_of_string : string → option float.
Variable int_of_string : string → option Z.
(** [datetime.fromisoformat(s)], read as [(dt.hour, dt.weekday())]. *)
Variable fromisoformat : string → option (nat * nat).
(** [random.randint(0, 23)] and [random.randint(0, 6)] as drawn for the
    row of a given index. *)
Variable randint_hour : nat → nat.
Variable randint_day : nat → nat.
(** [math.log1p]. *)
Variable log1p : float → option float.
(** [hash] of a string or of [None]. *)
Variable py_hash : DemoData.cell → Z.

(** [float(row.get('amount', 0))] *)
Definition amount_of (row : gmap string DemoData.cell) : option float :=
  match row !! "amount" with
  | None => Some 0%float
  | Some (DemoData.Text s) => float_of_string s
  | Some DemoData.Missing => None
  end.

(** [int(row.get('is_fraud', 0))] *)
Definition is_fraud_of (row : gmap string DemoData.cell) : option Z :=
  match row !! "is_fraud" with
  | None => Some 0
  | Some (DemoData.Text s) => int_of_string s
  | Some DemoData.Missing => None
  end.

(** The inner [try]: the hour and weekday of the timestamp, or two
    random draws when it cannot be read. *)
Definition hour_and_day (i : nat) (row : gmap string DemoData.cell) : nat * nat :=
  match default (DemoData.Text "") (row !! "timestamp") with
  | DemoData.Text s =>
      match fromisoformat (replace_Z s) with
      | Some hd => hd
      | None => (randint_hour i, randint_day i)
      end
  | DemoData.Missing => (randint_hour i, randint_day i)
  end.

Definition flag (b : bool) : value := VInt (if b then 1 else 0).

(** The body of the outer [try] for the row of index [i]: its feature
    record and label, or [None] when anything raises and the row is
    skipped. *)
Definition features_of (i : nat) (row : gmap string DemoData.cell)
    : option (gmap string value * Z) :=
  match amount_of row, is_fraud_of row with
  | Some amount, Some is_fraud =>
      let '(hour, day_of_week) := hour_and_day i row in
      let user_id := default (DemoData.Text "") (row !! "user_id") in
      match log1p amount with
      | Some amount_log =>
          Some (<["amount" := VFloat amount]>
                (<["hour" := VInt (Z.of_nat hour)]>
                (<["day_of_week" := VInt (Z.of_nat day_of_week)]>
                (<["is_weekend" :=
                     flag (bool_decide (Z.of_nat day_of_week ∈ [5; 6]))]>
                (<["is_night" :=
                     flag (bool_decide (Z.of_nat hour ∈ [0; 1; 2; 3; 4; 5; 23]))]>
                (<["amount_log" := VFloat amount_log]>
                (<["high_amount" :=
                     flag (PrimFloat.ltb (float_of_int 10000) amount)]>
                (<["suspicious_time" := flag (Z.of_nat hour <? 6)]>
                (<["user_hash" := VInt (py_hash user_id `mod` 100)]> ∅)))))))),
                is_fraud)
      | None => None
      end
  | _, _ => None
  end.

(** The loop over [enumerate(data)], from index [i] on, appending to
    [features] and [labels]. *)
Fixpoint create_from (i : nat) (data : list (gmap string DemoData.cell))
    (features : list (gmap string value)) (labels : list Z)
    : list (gmap string value) * list Z :=
  match data with
  | [] => (features, labels)
  | row :: rest =>
      match features_of i row with
      | Some (feat, is_fraud) =>
          create_from (S i) rest (features ++ [feat]) (labels ++ [is_fraud])
      | None => create_from (S i) rest features labels
      end
  end.

(** [create_simple_features_from_csv], once the file is read. *)
Definition create_simple_features (data : list (gmap string DemoData.cell))
    : list (gmap string value) * list Z :=
  match data with
  | [] => ([], [])
  | _ => create_from 0 data [] []
  end.

End WithLibrary.

End Features.

(** ** The demo scenarios

    The transactions that [render_dashboard] of [app.py] and [main] of
    [scripts/04_run_demo.py] score. *)

Definition micropay_scam : gmap string value :=
  <["amount" := VInt 50000]> (<["hour" := VInt 3]>
  (<["txns_last_1h" := VInt 8]> (<["is_new_recipient" := VInt 1]> ∅))).

Definition velocity_attack : gmap string value :=
  <["amount" := VInt 20000]> (<["hour" := VInt 2]>
  (<["txns_last_1h" := VInt 9]> (<["is_new_recipient" := VInt 1]> ∅))).

Definition normal_transaction : gmap string value :=
  <["amount" := VInt 1500]> (<["hour" := VInt 15]>
  (<["txns_last_1h" := VInt 1]> (<["is_new_recipient" := VInt 0]> ∅))).

(** A transfer above the higher amount threshold, with every other
    field left out. *)
Definition large_transfer : gmap string value := {["amount" := VInt 60000]}.

(** A row as the CSV reader of [analyze_batch_data] in [app.py] builds it
    without pandas ([dict(zip(headers, values))]): every value is a
    string.  Only the amount column is present. *)
Definition csv_row : gmap string value := {["amount" := VStr "50000"]}.

(** [10 ** 4300], the smallest count of 4301 digits, and a record
    whose only field is that velocity count. *)
Definition huge_count : Z := 10 ^ 4300.

Definition huge_velocity : gmap string value :=
  {["txns_last_1h" := VInt huge_count]}.

(** A batch of 50 inputs, 5 of which are not records at all: five
    runs of nine well-formed transactions followed by one bare string. *)
Definition batch_of_50 : list pyobj :=
  concat (replicate 5
    (replicate 9 (Dict normal_transaction) ++ [Scalar (VStr "garbage")])).

(** Which inputs of a batch are records. *)
Definition is_record (o : pyobj) : bool :=
  match o with Dict _ => true | Scalar _ => false end.

(** A stored scorer whose thresholds are out of order: MEDIUM starts
    at 60 but HIGH already at 30. *)
Definition crossed_thresholds : Train.thresholds_t :=
  {| Train.th_HIGH := 30; Train.th_MEDIUM := 60; Train.th_LOW := 0 |}.

Definition crossed_scorer : Train.SimpleScorer :=
  {| Train.model := {| Train.rules := Train.rules Train.init;
                       Train.thresholds := crossed_thresholds |} |}.

(** Four records without any field, so without [transaction_id]. *)
Definition four_anonymous : list pyobj := replicate 4 (Dict ∅).

(** ** Vocabulary of the properties *)

(** A rule is triggered on a transaction when its condition returns
    [True]. *)
Definition triggered (transaction : pyobj) (r : rule) : bool :=
  match condition r transaction with
  | Ok true => true
  | _ => false
  end.

Definition sum_points (rs : list rule) : Z :=
  foldr (fun r acc => points r + acc) 0 rs.

(** Python numbers: [int], [float] and [bool]. *)
Definition is_number (v : value) : bool :=
  match v with
  | VInt _ | VFloat _ | VBool _ => true
  | VStr _ | VNone => false
  end.

(** Field [k] of [d] is missing or holds a number. *)
Definition number_or_absent (d : gmap string value) (k : string) : bool :=
  match d !! k with
  | Some v => is_number v
  | None => true
  end.

(** The velocity count of [d] can be shown in an explanation: it is not
    an [int] above 5 with more digits than the interpreter prints. *)
Definition velocity_printable (d : gmap string value) : bool :=
  match d !! "txns_last_1h" with
  | Some (VInt n) => negb (5 <? n) || int_printable n
  | _ => true
  end.

Definition velocity_printable_in (t : pyobj) : bool :=
  match t with
  | Dict d => velocity_printable d
  | Scalar _ => true
  end.


(** The default each engine passes to [get], field by field. *)
Definition field_defaults : list (string * value) :=
  [ ("amount", VInt 0); ("hour", VInt 12); ("txns_last_1h", VInt 0);
    ("is_new_recipient", VInt 0) ].

(** The score bands as the specification reads [RISK_LEVELS]: every
    band is closed below and open above, except the top one, which is
    closed at 100. *)
Definition band_contains (band : tier * (Z * Z)) (s : Z) : bool :=
  let '(name, (lo, hi)) := band in
  (lo <=? s) && (match name with HIGH => s <=? hi | _ => s <? hi end).

Definition tier_eqb (a b : tier) : bool :=
  match a, b with
  | LOW, LOW | MEDIUM, MEDIUM | HIGH, HIGH => true
  | _, _ => false
  end.

(** [s] lies in the band that [bands] gives to tier [l]. *)
Definition in_band (bands : list (tier * (Z * Z))) (l : tier) (s : Z) : bool :=
  existsb (fun band => tier_eqb (fst band) l && band_contains band s) bands.

(** The recommended action of each tier, as the specification lists
    them. *)
Definition spec_action (l : tier) : string :=
  match l with
  | HIGH => "BLOCK - Requires additional verification"
  | MEDIUM => "WARN - Review recommended"
  | LOW => "ALLOW - Appears legitimate"
  end.

(** The startup check the specification asks for, in its words: the
    bands start at 0, each is non-empty and begins where the previous
    one ended, and the last ends at 100. *)
Fixpoint spec_bands_chain (start : Z) (bands : list (tier * (Z * Z))) : bool :=
  match bands with
  | [] => start =? 100
  | (_, (lo, hi)) :: rest => (lo =? start) && (lo <? hi) && spec_bands_chain hi rest
  end.

Definition spec_bands_well_formed (bands : list (tier * (Z * Z))) : bool :=
  match bands with
  | [] => false
  | _ => spec_bands_chain 0 bands
  end.

(** The bands a detector's [thresholds] stand for: each tier from its
    own threshold up to the next one, the top tier up to 100. *)
Definition bands_of_thresholds (th : Train.thresholds_t) : list (tier * (Z * Z)) :=
  [ (LOW, (Train.th_LOW th, Train.th_MEDIUM th));
    (MEDIUM, (Train.th_MEDIUM th, Train.th_HIGH th));
    (HIGH, (Train.th_HIGH th, 100)) ].

(** Reading a decimal index back from its digits, leading zeros
    allowed. *)
Definition decode_index (s : string) : option nat :=
  Nat.of_uint <$> NilEmpty.uint_of_string s.

(** Tiers in order of severity. *)
Definition tier_rank (l : tier) : Z :=
  match l with LOW => 0 | MEDIUM => 1 | HIGH => 2 end.

(** Every value of the record is a string. *)
Definition string_valued (d : gmap string value) : Prop :=
  ∀ k v, d !! k = Some v → ∃ s, v = VStr s.

(** ** Basic facts *)

Lemma bind_Ok {A B} (m : result A) (k : A → result B) (b : B) :
  bind m k = Ok b → ∃ a, m = Ok a ∧ k a = Ok b.
Proof. destruct m as [a|e]; simpl; [eauto | discriminate]. Qed.

Lemma is_ok_bind {A B} (m : result A) (k : A → result B) :
  is_ok (bind m k) = match m with Ok a => is_ok (k a) | Raise _ => false end.
Proof. by destruct m. Qed.

Lemma sum_points_cons r rs : sum_points (r :: rs) = points r + sum_points rs.
Proof. reflexivity. Qed.

(** Every point value being non-negative, so is any sum of them. *)
Lemma sum_points_filter_nonneg (f : rule → bool) rs :
  Forall (fun r => 0 <= points r) rs → 0 <= sum_points (List.filter f rs).
Proof.
  induction 1 as [|r rs Hr _ IH]; simpl; [lia |].
  destruct (f r); simpl; lia.
Qed.

(** *** The rule loop *)

(** When the loop returns, the score has grown by the points of the
    triggered rules and the reasons by their descriptions, in table
    order. *)
Lemma apply_rules_Ok rs t : ∀ s l s' l',
  apply_rules rs t s l = Ok (s', l') →
  s' = s + sum_points (List.filter (triggered t) rs)
  ∧ l' = l ++ List.map description (List.filter (triggered t) rs).
Proof.
  induction rs as [|r rs IH]; intros s l s' l' H; simpl in H.
  - inversion H; subst. simpl. split; [lia | by rewrite app_nil_r].
  - apply bind_Ok in H as (hit & Hc & H).
    assert (Ht : triggered t r = hit)
      by (unfold triggered; rewrite Hc; by destruct hit).
    cbn [List.filter]. rewrite Ht.
    destruct hit; apply IH in H as [-> ->]; simpl.
    + split; [lia | by rewrite <- app_assoc].
    + done.
Qed.

(** The loop returns exactly when every condition does. *)
Lemma apply_rules_is_ok rs t : ∀ s l,
  is_ok (apply_rules rs t s l) = forallb (fun r => is_ok (condition r t)) rs.
Proof.
  induction rs as [|r rs IH]; intros s l; simpl; [done |].
  rewrite is_ok_bind. destruct (condition r t) as [[|]|e]; simpl; auto.
Qed.

(** *** The three engines, taken apart *)

Ltac case_cond :=
  match goal with
  | |- context [py_gt ?v ?c] => destruct (py_gt v c) as [[|]|]
  | |- context [py_lt ?v ?c] => destruct (py_lt v c) as [[|]|]
  | |- context [py_eq ?v ?c] => destruct (py_eq v c)
  | |- context [py_str ?r ?v] => destruct (py_str r v)
  end; cbn [bind].

(** The four inline blocks of [app.py] compute the loop over
    [App.declared_rules], errors included. *)
Lemma raw_score_as_table float_repr t :
  App.raw_score float_repr t = apply_rules (App.declared_rules float_repr t) t 0 [].
Proof.
  destruct t as [d|v]; [|reflexivity].
  unfold App.raw_score, App.declared_rules, App.rule_amount, App.rule_time,
    App.rule_velocity, App.rule_new_recipient, App.e_amount_gt_50000,
    App.e_amount_gt_10000, App.e_hour_lt_6, App.e_high_velocity,
    App.e_new_recipient, App.velocity_description, get.
  cbn [apply_rules condition points description bind].
  repeat case_cond; reflexivity.
Qed.

Lemma app_calculate_Ok float_repr t r :
  App.calculate_final_score float_repr t = Ok r →
  ∃ raw reasons,
    App.raw_score float_repr t = Ok (raw, reasons)
    ∧ App.risk_score r = Z.min raw 100
    ∧ (App.risk_level r, App.suggested_action r) = App.classify (Z.min raw 100)
    ∧ App.explanations r = reasons.
Proof.
  unfold App.calculate_final_score. intros H.
  apply bind_Ok in H as ([raw reasons] & Hraw & H).
  exists raw, reasons. destruct (App.classify (Z.min raw 100)) as [level action].
  inversion H; subst; simpl. auto.
Qed.

Lemma demo_calculate_Ok t r :
  Demo.calculate_final_score t = Ok r →
  ∃ raw reasons,
    Demo.raw_score t = Ok (raw, reasons)
    ∧ Demo.risk_score r = Z.min raw 100
    ∧ (Demo.risk_level r, Demo.suggested_action r) = Demo.classify (Z.min raw 100)
    ∧ Demo.explanations r = take 3 reasons.
Proof.
  unfold Demo.calculate_final_score. intros H.
  apply bind_Ok in H as ([raw reasons] & Hraw & H).
  exists raw, reasons. destruct (Demo.classify (Z.min raw 100)) as [level action].
  inversion H; subst; simpl. auto.
Qed.

Lemma train_predict_Ok self t r :
  Train.predict self t = Ok r →
  ∃ raw reasons,
    Train.raw_score self t = Ok (raw, reasons)
    ∧ Train.risk_score r = Z.min raw 100
    ∧ (Train.risk_level r, Train.suggested_action r)
      = Train.classify self (Z.min raw 100)
    ∧ Train.rules_triggered r = reasons.
Proof.
  unfold Train.predict. intros H.
  apply bind_Ok in H as ([raw reasons] & Hraw & H).
  exists raw, reasons. destruct (Train.classify self (Z.min raw 100)) as [level action].
  inversion H; subst; simpl. auto.
Qed.

Lemma app_points_nonneg float_repr t :
  Forall (fun r => 0 <= points r) (App.declared_rules float_repr t).
Proof. repeat constructor; simpl; lia. Qed.

Lemma demo_points_nonneg : Forall (fun r => 0 <= points r) Demo.rules.
Proof. repeat constructor; simpl; lia. Qed.

Lemma train_points_nonneg :
  Forall (fun r => 0 <= points r) (Train.rules Train.init).
Proof. repeat constructor; simpl; lia. Qed.

(** ** The claims *)

(** C1. Whenever one of the three engines returns a result, its
    [risk_score] is the sum of the points of the triggered rules, each
    taken whole, capped once at 100; it therefore lies in [0,100]. *)
Theorem C1_risk_score_clamped (float_repr : float → string) (t : pyobj) :
  (∀ r, App.calculate_final_score float_repr t = Ok r →
     App.risk_score r
       = Z.min (sum_points (List.filter (triggered t) (App.declared_rules float_repr t))) 100
     ∧ 0 <= App.risk_score r <= 100)
  ∧ (∀ r, Demo.calculate_final_score t = Ok r →
     Demo.risk_score r
       = Z.min (sum_points (List.filter (triggered t) Demo.rules)) 100
     ∧ 0 <= Demo.risk_score r <= 100)
  ∧ (∀ r, Train.predict Train.init t = Ok r →
     Train.risk_score r
       = Z.min (sum_points (List.filter (triggered t) (Train.rules Train.init))) 100
     ∧ 0 <= Train.risk_score r <= 100).
Proof.
  split; [|split]; intros r H.
  - apply app_calculate_Ok in H as (raw & reasons & Hraw & -> & _).
    rewrite raw_score_as_table in Hraw. apply apply_rules_Ok in Hraw as [-> _].
    pose proof (sum_points_filter_nonneg (triggered t) _ (app_points_nonneg float_repr t)).
    split; [f_equal; lia | lia].
  - apply demo_calculate_Ok in H as (raw & reasons & Hraw & -> & _).
    apply apply_rules_Ok in Hraw as [-> _].
    pose proof (sum_points_filter_nonneg (triggered t) _ demo_points_nonneg).
    split; [f_equal; lia | lia].
  - apply train_predict_Ok in H as (raw & reasons & Hraw & -> & _).
    apply apply_rules_Ok in Hraw as [-> _].
    pose proof (sum_points_filter_nonneg (triggered t) _ train_points_nonneg).
    split; [f_equal; lia | lia].
Qed.

(** The three engines do return on the micropay scenario, and their
    scores obey C1 there. *)
Lemma C1_witness :
  ∃ ra rd rt,
    App.calculate_final_score (fun _ => "") (Dict micropay_scam) = Ok ra
    ∧ Demo.calculate_final_score (Dict micropay_scam) = Ok rd
    ∧ Train.predict Train.init (Dict micropay_scam) = Ok rt
    ∧ 0 <= App.risk_score ra <= 100
    ∧ 0 <= Demo.risk_score rd <= 100
    ∧ 0 <= Train.risk_score rt <= 100.
Proof.
  pose proof (C1_risk_score_clamped (fun _ => "") (Dict micropay_scam))
    as (Ha & Hd & Ht).
  do 3 eexists.
  split; [vm_compute; reflexivity|].
  split; [vm_compute; reflexivity|].
  split; [vm_compute; reflexivity|].
  split; [apply Ha; vm_compute; reflexivity|].
  split; [apply Hd; vm_compute; reflexivity|].
  apply Ht; vm_compute; reflexivity.
Defined.

(** The cap does real work: with a large night-time transfer to a new
    recipient at high velocity the demo rules add up to 150. *)
Lemma raw_score_exceeds_cap :
  ∃ reasons,
    Demo.raw_score (Dict (<["amount" := VInt 60000]> micropay_scam))
    = Ok (150, reasons).
Proof. eexists. vm_compute. reflexivity. Qed.

(** *** Bands and tiers *)

(** The three bands of [RISK_LEVELS], spelled out. *)
Lemma in_band_RISK_LEVELS (s : Z) :
  (in_band Config.RISK_LEVELS LOW s = true ↔ 0 <= s < 40)
  ∧ (in_band Config.RISK_LEVELS MEDIUM s = true ↔ 40 <= s < 70)
  ∧ (in_band Config.RISK_LEVELS HIGH s = true ↔ 70 <= s <= 100).
Proof.
  unfold in_band, Config.RISK_LEVELS, band_contains. simpl.
  rewrite !orb_false_r, !andb_true_iff, !Z.leb_le, !Z.ltb_lt. lia.
Qed.

Ltac case_thresholds s :=
  destruct (Z.leb_spec 70 s); destruct (Z.leb_spec 40 s); try lia.

(** C2. On [0,100] the bands LOW = [0,40), MEDIUM = [40,70) and
    HIGH = [70,100] of [RISK_LEVELS] hold every score in exactly one of
    them, and each engine's classifier returns the tier of that band
    together with the tier's fixed action string. *)
Theorem C2_risk_bands_partition (s : Z) :
  0 <= s <= 100 →
  (∃ l, in_band Config.RISK_LEVELS l s = true
        ∧ ∀ l', in_band Config.RISK_LEVELS l' s = true → l' = l)
  ∧ (∀ l, in_band Config.RISK_LEVELS l s = true ↔ App.classify s = (l, spec_action l))
  ∧ (∀ l, in_band Config.RISK_LEVELS l s = true ↔ Demo.classify s = (l, spec_action l))
  ∧ (∀ l, in_band Config.RISK_LEVELS l s = true
          ↔ Train.classify Train.init s = (l, spec_action l))
  ∧ spec_action HIGH = "BLOCK - Requires additional verification"
  ∧ spec_action MEDIUM = "WARN - Review recommended"
  ∧ spec_action LOW = "ALLOW - Appears legitimate".
Proof.
  intros Hs. pose proof (in_band_RISK_LEVELS s) as (HL & HM & HH).
  split; [|split; [|split; [|split]]]; [| | | | done].
  - destruct (Z.leb_spec 70 s); [|destruct (Z.leb_spec 40 s)].
    + exists HIGH. split; [apply HH; lia|]. intros []; rewrite ?HL, ?HM; (done || lia).
    + exists MEDIUM. split; [apply HM; lia|]. intros []; rewrite ?HL, ?HH; (done || lia).
    + exists LOW. split; [apply HL; lia|]. intros []; rewrite ?HM, ?HH; (done || lia).
  - intros l. unfold App.classify.
    destruct l; rewrite ?HL, ?HM, ?HH; simpl; case_thresholds s;
      split; (done || lia).
  - intros l. unfold Demo.classify.
    destruct l; rewrite ?HL, ?HM, ?HH; simpl; case_thresholds s;
      split; (done || lia).
  - intros l. unfold Train.classify. simpl.
    destruct l; rewrite ?HL, ?HM, ?HH; simpl; case_thresholds s;
      split; (done || lia).
Qed.

Lemma C2_witness :
  0 <= 40 <= 100
  ∧ App.classify 40 = (MEDIUM, "WARN - Review recommended")
  ∧ in_band Config.RISK_LEVELS MEDIUM 40 = true.
Proof.
  assert (H : 0 <= 40 <= 100) by lia.
  split; [exact H|]. split; [reflexivity|].
  apply (proj1 (proj2 (C2_risk_bands_partition 40 H)) MEDIUM). reflexivity.
Defined.

(** *** Overlapping amount rules *)

(** A float above 50000 is above 10000: the comparison of the kernel's
    floats is read through its specification on [spec_float]. *)
Lemma float_gt_50000_gt_10000 (f : float) :
  PrimFloat.ltb (float_of_int 50000) f = true →
  PrimFloat.ltb (float_of_int 10000) f = true.
Proof.
  rewrite !FloatAxioms.ltb_spec.
  replace (Prim2SF (float_of_int 50000))
    with (S754_finite false 6871947673600000 (-37)) by (vm_compute; reflexivity).
  replace (Prim2SF (float_of_int 10000))
    with (S754_finite false 5497558138880000 (-39)) by (vm_compute; reflexivity).
  unfold SFltb, SFcompare.
  destruct (Prim2SF f) as [s|s| |s m e]; try done.
  destruct s; [done|].
  destruct (Z.compare_spec (-37) e) as [<-|H|H]; intros Hlt; try discriminate.
  - reflexivity.
  - destruct (Z.compare_spec (-39) e); (lia || reflexivity).
Qed.

Lemma py_gt_50000_gt_10000 (v : value) :
  py_gt v 50000 = Ok true → py_gt v 10000 = Ok true.
Proof.
  destruct v as [n|f|[]|s|]; simpl; intros [= H]; try discriminate.
  - f_equal. apply Z.ltb_lt in H. apply Z.ltb_lt. lia.
  - f_equal. by apply float_gt_50000_gt_10000.
Qed.

(** C3, as the code has it.  When the amount is above 50,000, the
    engines of [04_run_demo.py] and [03_train_models.py] trigger both
    amount rules and add 40 and 30 to the same score; the engine of
    [app.py] chains the two with [elif], so there only the first one
    triggers and 40 is added. *)
Theorem C3_amount_rules_overlap (float_repr : float → string) (t : pyobj) (v : value) :
  get t "amount" (VInt 0) = Ok v →
  py_gt v 50000 = Ok true →
  (triggered t Demo.r_amount_gt_50000 = true
   ∧ triggered t Demo.r_amount_gt_10000 = true
   ∧ ∀ raw reasons, Demo.raw_score t = Ok (raw, reasons) →
       let others := List.filter (triggered t)
         [Demo.r_hour_lt_6; Demo.r_hour_gt_22; Demo.r_new_recipient;
          Demo.r_high_velocity] in
       raw = 40 + 30 + sum_points others
       ∧ reasons = "Amount > ₹50,000" :: "Amount > ₹10,000"
                     :: List.map description others)
  ∧ (triggered t Train.r_amount_gt_50000 = true
     ∧ triggered t Train.r_amount_gt_10000 = true
     ∧ ∀ raw reasons, Train.raw_score Train.init t = Ok (raw, reasons) →
         let others := List.filter (triggered t)
           [Train.r_hour_lt_6; Train.r_hour_gt_22; Train.r_amount_log_gt_12] in
         raw = 40 + 30 + sum_points others
         ∧ reasons = "Amount > ₹50,000" :: "Amount > ₹10,000"
                       :: List.map description others)
  ∧ (triggered t App.e_amount_gt_50000 = true
     ∧ triggered t App.e_amount_gt_10000 = false
     ∧ ∀ raw reasons, App.raw_score float_repr t = Ok (raw, reasons) →
         let others := List.filter (triggered t)
           [App.e_hour_lt_6; App.e_high_velocity float_repr t;
            App.e_new_recipient] in
         raw = 40 + sum_points others
         ∧ reasons = "Amount > ‚Çπ50,000" :: List.map description others).
Proof.
  intros Hget H50. pose proof (py_gt_50000_gt_10000 v H50) as H10.
  assert (Hd1 : triggered t Demo.r_amount_gt_50000 = true)
    by (unfold triggered; simpl; rewrite Hget; simpl; by rewrite H50).
  assert (Hd2 : triggered t Demo.r_amount_gt_10000 = true)
    by (unfold triggered; simpl; rewrite Hget; simpl; by rewrite H10).
  assert (Ht1 : triggered t Train.r_amount_gt_50000 = true)
    by (unfold triggered; simpl; unfold Train._check_amount_gt_50000;
        rewrite Hget; simpl; by rewrite H50).
  assert (Ht2 : triggered t Train.r_amount_gt_10000 = true)
    by (unfold triggered; simpl; unfold Train._check_amount_gt_10000;
        rewrite Hget; simpl; by rewrite H10).
  assert (Ha1 : triggered t App.e_amount_gt_50000 = true)
    by (unfold triggered; simpl; rewrite Hget; simpl; by rewrite H50).
  assert (Ha2 : triggered t App.e_amount_gt_10000 = false)
    by (unfold triggered; simpl; rewrite Hget; simpl; by rewrite H50).
  split; [|split]; (split; [assumption | split; [assumption|]]);
    intros raw reasons H others; subst others.
  - apply apply_rules_Ok in H as [-> ->]. unfold Demo.rules.
    cbn [List.filter]. rewrite Hd1, Hd2, !sum_points_cons.
    split; [simpl points; lia | reflexivity].
  - apply apply_rules_Ok in H as [-> ->]. cbn [Train.rules Train.init].
    cbn [List.filter]. rewrite Ht1, Ht2, !sum_points_cons.
    split; [simpl points; lia | reflexivity].
  - rewrite raw_score_as_table in H.
    apply apply_rules_Ok in H as [-> ->]. unfold App.declared_rules.
    cbn [List.filter]. rewrite Ha1, Ha2, !sum_points_cons.
    split; [simpl points; lia | reflexivity].
Qed.

(** At 60,000 the engine of [04_run_demo.py] adds 70 for the amount,
    as C3 says it must. *)
Lemma C3_witness :
  get (Dict large_transfer) "amount" (VInt 0) = Ok (VInt 60000)
  ∧ py_gt (VInt 60000) 50000 = Ok true
  ∧ triggered (Dict large_transfer) Demo.r_amount_gt_50000 = true
  ∧ triggered (Dict large_transfer) Demo.r_amount_gt_10000 = true.
Proof.
  assert (Hget : get (Dict large_transfer) "amount" (VInt 0) = Ok (VInt 60000))
    by reflexivity.
  assert (Hgt : py_gt (VInt 60000) 50000 = Ok true) by reflexivity.
  destruct (C3_amount_rules_overlap (fun _ => "") _ _ Hget Hgt)
    as ((H1 & H2 & _) & _).
  auto.
Defined.

(** C3 as stated fails on [app.py]: the amount is above 50,000, yet the
    second amount evaluator adds nothing; the score is 40 and the only
    explanation is the first evaluator's. *)
Lemma C3_counterexample :
  large_transfer !! "amount" = Some (VInt 60000)
  ∧ py_gt (VInt 60000) 50000 = Ok true
  ∧ App.raw_score (fun _ => "") (Dict large_transfer)
    = Ok (40, ["Amount > ‚Çπ50,000"])
  ∧ App.rule_amount (Dict large_transfer) (0, []) ≠ Ok (40 + 30,
      ["Amount > ‚Çπ50,000"; "Amount > ‚Çπ10,000"]).
Proof. repeat split; vm_compute; congruence. Qed.

(** *** The micropay scenario *)

(** C4, as the code has it.  On [{amount: 50000, hour: 3,
    txns_last_1h: 8, is_new_recipient: 1}] the amount > 50,000 rule
    stays silent; amount > 10,000 (30), hour < 6 (25), high velocity
    (30) and new recipient (25) trigger, for a raw sum of 110, capped to
    100, tier HIGH, action "BLOCK - Requires additional verification".
    The demo engine lists its first three reasons only. *)
Theorem C4_micropay_scenario (float_repr : float → string) :
  App.raw_score float_repr (Dict micropay_scam)
  = Ok (30 + 25 + 30 + 25,
        ["Amount > ‚Çπ10,000"; "Late night transaction (12AM-6AM)";
         "High velocity (8 transactions/hour)";
         "First time sending to this recipient"])
  ∧ App.calculate_final_score float_repr (Dict micropay_scam)
    = Ok {| App.risk_score := 100;
            App.risk_level := HIGH;
            App.suggested_action := "BLOCK - Requires additional verification";
            App.explanations :=
              ["Amount > ‚Çπ10,000"; "Late night transaction (12AM-6AM)";
               "High velocity (8 transactions/hour)";
               "First time sending to this recipient"];
            App.breakdown := {| App.rule_engine_score := 100;
                                App.ml_probability := 0.5%float;
                                App.anomaly_score := 0 |} |}
  ∧ Demo.raw_score (Dict micropay_scam)
    = Ok (30 + 25 + 25 + 30,
          ["Amount > ₹10,000"; "Late night (12AM-6AM)"; "New recipient";
           "High velocity"])
  ∧ Demo.calculate_final_score (Dict micropay_scam)
    = Ok {| Demo.risk_score := 100;
            Demo.risk_level := HIGH;
            Demo.suggested_action := "BLOCK - Requires additional verification";
            Demo.explanations :=
              ["Amount > ₹10,000"; "Late night (12AM-6AM)"; "New recipient"] |}.
Proof. repeat split; vm_compute; reflexivity. Qed.

(** C4 as stated fails: in neither engine does the scenario trigger
    the amount > 50,000 rule, and the raw sum is 110, not 120. *)
Lemma C4_counterexample :
  micropay_scam !! "amount" = Some (VInt 50000)
  ∧ triggered (Dict micropay_scam) Demo.r_amount_gt_50000 = false
  ∧ triggered (Dict micropay_scam) App.e_amount_gt_50000 = false
  ∧ (∀ reasons, Demo.raw_score (Dict micropay_scam) ≠ Ok (120, reasons))
  ∧ (∀ reasons, App.raw_score (fun _ => "") (Dict micropay_scam) ≠ Ok (120, reasons)).
Proof.
  split; [reflexivity|]. split; [reflexivity|]. split; [reflexivity|].
  split; intros reasons; vm_compute; intros [= ].
Qed.

(** The two other demo scenarios: the velocity attack also saturates
    (30 + 25 + 30 + 25 = 110), the ordinary payment triggers nothing. *)
Lemma other_scenarios (float_repr : float → string) :
  (∃ reasons, App.raw_score float_repr (Dict velocity_attack) = Ok (110, reasons))
  ∧ (∃ reasons, Demo.raw_score (Dict velocity_attack) = Ok (110, reasons))
  ∧ App.raw_score float_repr (Dict normal_transaction) = Ok (0, [])
  ∧ Demo.calculate_final_score (Dict normal_transaction)
    = Ok {| Demo.risk_score := 0;
            Demo.risk_level := LOW;
            Demo.suggested_action := "ALLOW - Appears legitimate";
            Demo.explanations := [] |}.
Proof.
  split; [eexists; vm_compute; reflexivity|].
  split; [eexists; vm_compute; reflexivity|].
  split; vm_compute; reflexivity.
Qed.

(** *** The digit limit of integer formatting

    Numbers of thousands of digits are handled by their decimal
    notation, never by evaluating them. *)

Lemma of_uint_acc_zeros (k : nat) : ∀ acc,
  Z.pos (Pos.of_uint_acc (Nat.iter k Decimal.D0 Decimal.Nil) acc)
  = Z.pos acc * 10 ^ Z.of_nat k.
Proof.
  induction k as [|k IH]; intros acc.
  - cbn [Nat.iter nat_rect Pos.of_uint_acc Z.of_nat]. rewrite Z.pow_0_r. lia.
  - rewrite Nat2Z.inj_succ, Z.pow_succ_r by lia.
    cbn [Nat.iter nat_rect Pos.of_uint_acc]. rewrite IH. lia.
Qed.

Lemma of_uint_acc_nines (k : nat) : ∀ acc,
  Z.pos (Pos.of_uint_acc (Nat.iter k Decimal.D9 Decimal.Nil) acc)
  = Z.pos acc * 10 ^ Z.of_nat k + (10 ^ Z.of_nat k - 1).
Proof.
  induction k as [|k IH]; intros acc.
  - cbn [Nat.iter nat_rect Pos.of_uint_acc Z.of_nat]. rewrite Z.pow_0_r. lia.
  - rewrite Nat2Z.inj_succ, Z.pow_succ_r by lia.
    cbn [Nat.iter nat_rect Pos.of_uint_acc]. rewrite IH. lia.
Qed.

Lemma length_repeated_digit (k : nat) (digit : Decimal.uint → Decimal.uint) :
  (∀ d, String.length (NilEmpty.string_of_uint (digit d))
        = S (String.length (NilEmpty.string_of_uint d))) →
  String.length (NilEmpty.string_of_uint (Nat.iter k digit Decimal.Nil)) = k.
Proof.
  intros Hdigit. induction k as [|k IH]; [reflexivity|].
  cbn [Nat.iter nat_rect]. rewrite Hdigit. f_equal. exact IH.
Qed.

(** [10 ** k] is written with [k + 1] digits. *)
Lemma int_digits_pow10 (k : nat) : int_digits (10 ^ Z.of_nat k) = Z.of_nat (S k).
Proof.
  set (d := Decimal.D1 (Nat.iter k Decimal.D0 Decimal.Nil)).
  assert (E : 10 ^ Z.of_nat k = Z.of_int (Decimal.Pos d)).
  { cbn [Z.of_int]. unfold Z.of_uint, d. cbn [Pos.of_uint Z.of_N].
    rewrite of_uint_acc_zeros. lia. }
  unfold int_digits, str_int.
  rewrite Z.abs_eq by (apply Z.pow_nonneg; lia).
  rewrite E, DecimalZ.to_of. unfold d.
  cbn [Decimal.norm Decimal.unorm Decimal.nzhead NilZero.string_of_int
       NilZero.string_of_uint NilEmpty.string_of_uint String.length].
  by rewrite length_repeated_digit.
Qed.

(** [10 ** k - 1] is written with [k] digits. *)
Lemma int_digits_pow10_pred (k : nat) :
  int_digits (10 ^ Z.of_nat (S k) - 1) = Z.of_nat (S k).
Proof.
  set (d := Decimal.D9 (Nat.iter k Decimal.D9 Decimal.Nil)).
  assert (E : 10 ^ Z.of_nat (S k) - 1 = Z.of_int (Decimal.Pos d)).
  { cbn [Z.of_int]. unfold Z.of_uint, d. cbn [Pos.of_uint Z.of_N].
    rewrite of_uint_acc_nines, Nat2Z.inj_succ, Z.pow_succ_r by lia. lia. }
  assert (0 < 10 ^ Z.of_nat (S k)) by (apply Z.pow_pos_nonneg; lia).
  unfold int_digits, str_int.
  rewrite Z.abs_eq by lia.
  rewrite E, DecimalZ.to_of. unfold d.
  cbn [Decimal.norm Decimal.unorm Decimal.nzhead NilZero.string_of_int
       NilZero.string_of_uint NilEmpty.string_of_uint String.length].
  by rewrite length_repeated_digit.
Qed.

(** The largest count that prints has 4300 digits; the next one,
    [10 ** 4300], does not print. *)
Lemma int_print_limit :
  int_printable (huge_count - 1) = true
  ∧ int_printable huge_count = false
  ∧ (5 <? huge_count) = true.
Proof.
  unfold huge_count, int_printable.
  change 4300 with (Z.of_nat 4300) at 1 2 3.
  split; [|split].
  - change (Z.of_nat 4300) with (Z.of_nat (S 4299)).
    rewrite int_digits_pow10_pred. reflexivity.
  - rewrite int_digits_pow10. reflexivity.
  - apply Z.ltb_lt.
    pose proof (Z.pow_le_mono_r 10 1 (Z.of_nat 4300)) as H.
    rewrite Z.pow_1_r in H.
    assert (H' : 10 <= 10 ^ Z.of_nat 4300) by (apply H; [lia | vm_compute; discriminate]).
    clear H. revert H'. generalize (10 ^ Z.of_nat 4300). intros; lia.
Qed.

(** *** Missing fields *)

Lemma get_Dict d k dv :
  get (Dict d) k dv = Ok (match d !! k with Some v => v | None => dv end).
Proof. reflexivity. Qed.

(** A missing field reads as its default: inserting the default under
    the missing key changes no [get] that uses that default. *)
Lemma get_insert_absent (d : gmap string value) k dv k' dv' :
  d !! k = None → (k' = k → dv' = dv) →
  get (Dict (<[k := dv]> d)) k' dv' = get (Dict d) k' dv'.
Proof.
  intros Hk Hdv. rewrite !get_Dict. f_equal.
  destruct (decide (k = k')) as [<-|Hne].
  - rewrite lookup_insert_eq, Hk. symmetry. by apply Hdv.
  - by rewrite lookup_insert_ne.
Qed.

Lemma app_calculate_is_ok float_repr t :
  is_ok (App.calculate_final_score float_repr t)
  = forallb (fun r => is_ok (condition r t)) (App.declared_rules float_repr t).
Proof.
  unfold App.calculate_final_score. rewrite is_ok_bind, raw_score_as_table.
  rewrite <- (apply_rules_is_ok _ t 0 []).
  destruct (apply_rules _ t 0 []) as [[raw reasons]|e]; [|done].
  by destruct (App.classify (Z.min raw 100)).
Qed.

Lemma demo_calculate_is_ok t :
  is_ok (Demo.calculate_final_score t)
  = forallb (fun r => is_ok (condition r t)) Demo.rules.
Proof.
  unfold Demo.calculate_final_score, Demo.raw_score. rewrite is_ok_bind.
  rewrite <- (apply_rules_is_ok _ t 0 []).
  destruct (apply_rules _ t 0 []) as [[raw reasons]|e]; [|done].
  by destruct (Demo.classify (Z.min raw 100)).
Qed.

Lemma field_defaults_functional k dv dv' :
  In (k, dv) field_defaults → In (k, dv') field_defaults → dv' = dv.
Proof. unfold field_defaults. simpl. intros H H'. intuition congruence. Qed.

(** The demo engine scores a record exactly when the three compared
    fields are missing or numbers. *)
Lemma demo_calculate_fields (d : gmap string value) :
  is_ok (Demo.calculate_final_score (Dict d))
  = number_or_absent d "amount" && number_or_absent d "hour"
    && number_or_absent d "txns_last_1h".
Proof.
  rewrite demo_calculate_is_ok.
  cbn [forallb Demo.rules condition Demo.r_amount_gt_50000
       Demo.r_amount_gt_10000 Demo.r_hour_lt_6 Demo.r_hour_gt_22
       Demo.r_new_recipient Demo.r_high_velocity].
  rewrite !get_Dict. unfold number_or_absent.
  destruct (d !! "amount") as [[]|], (d !! "hour") as [[]|],
    (d !! "txns_last_1h") as [[]|]; reflexivity.
Qed.

(** [app.py] raises [ValueError] on a velocity count above 5 that it
    cannot print, once amount and hour have passed. *)
Lemma app_velocity_unprintable float_repr (d : gmap string value) (n : Z) :
  d !! "amount" = None → d !! "hour" = None →
  d !! "txns_last_1h" = Some (VInt n) →
  int_printable n = false → (5 <? n) = true →
  App.calculate_final_score float_repr (Dict d) = Raise ValueError.
Proof.
  intros Ea Eh Et Hprint Hgt.
  unfold App.calculate_final_score, App.raw_score, App.rule_amount,
    App.rule_time, App.rule_velocity.
  rewrite !get_Dict, Ea, Eh, Et.
  cbn [bind py_gt py_lt py_str]. rewrite Hgt, Hprint. reflexivity.
Qed.

(** C5, as the code has it.  Scoring a record returns a result exactly
    when each of the fields [amount], [hour] and [txns_last_1h] is
    missing or holds a number and, in [app.py] only, the velocity count
    can be printed (an [int] count above 5 with more than 4300 digits
    raises [ValueError] when its explanation is formatted); and a
    missing field scores exactly as if it were present with its default
    (amount 0, hour 12, txns_last_1h 0, is_new_recipient 0). *)
Theorem C5_missing_fields_default (float_repr : float → string)
    (d : gmap string value) :
  is_ok (App.calculate_final_score float_repr (Dict d))
  = number_or_absent d "amount" && number_or_absent d "hour"
    && number_or_absent d "txns_last_1h" && velocity_printable d
  ∧ is_ok (Demo.calculate_final_score (Dict d))
    = number_or_absent d "amount" && number_or_absent d "hour"
      && number_or_absent d "txns_last_1h"
  ∧ (∀ k dv, In (k, dv) field_defaults → d !! k = None →
     App.calculate_final_score float_repr (Dict (<[k := dv]> d))
     = App.calculate_final_score float_repr (Dict d)
     ∧ Demo.calculate_final_score (Dict (<[k := dv]> d))
       = Demo.calculate_final_score (Dict d)).
Proof.
  split; [|split].
  - rewrite app_calculate_is_ok.
    cbn [forallb App.declared_rules condition App.e_amount_gt_50000
         App.e_amount_gt_10000 App.e_hour_lt_6 App.e_high_velocity
         App.e_new_recipient].
    rewrite !get_Dict. unfold number_or_absent, velocity_printable.
    destruct (d !! "amount") as [[]|], (d !! "hour") as [[]|],
      (d !! "txns_last_1h") as [[count| | | |]|];
      cbn [bind py_gt py_lt py_str is_ok is_number andb];
      try reflexivity;
      repeat (case_match; cbn [bind is_ok andb orb negb]);
    first [reflexivity | discriminate].
  - apply demo_calculate_fields.
  - intros k dv Hin Hk.
    assert (Hget : ∀ k' dv', In (k', dv') field_defaults →
              get (Dict (<[k := dv]> d)) k' dv' = get (Dict d) k' dv').
    { intros k' dv' Hin'. apply get_insert_absent; [done|].
      intros ->. by apply (field_defaults_functional k). }
    split.
    + unfold App.calculate_final_score, App.raw_score, App.rule_amount,
        App.rule_time, App.rule_velocity, App.rule_new_recipient.
      rewrite !Hget by (cbv [field_defaults In]; tauto). reflexivity.
    + unfold Demo.calculate_final_score, Demo.raw_score, Demo.rules,
        Demo.r_amount_gt_50000, Demo.r_amount_gt_10000, Demo.r_hour_lt_6,
        Demo.r_hour_gt_22, Demo.r_new_recipient, Demo.r_high_velocity.
      cbn [apply_rules condition points description].
      rewrite !Hget by (cbv [field_defaults In]; tauto). reflexivity.
Qed.

(** The empty record (every field missing) is scored, and scores as the
    record that holds the default hour. *)
Lemma C5_witness :
  is_ok (App.calculate_final_score (fun _ => "") (Dict ∅)) = true
  ∧ is_ok (Demo.calculate_final_score (Dict ∅)) = true
  ∧ In ("hour", VInt 12) field_defaults
  ∧ (∅ : gmap string value) !! "hour" = None
  ∧ Demo.calculate_final_score (Dict (<["hour" := VInt 12]> ∅))
    = Demo.calculate_final_score (Dict ∅).
Proof.
  destruct (C5_missing_fields_default (fun _ => "") ∅) as (Happ & Htotal & Hdefault).
  assert (Hin : In ("hour", VInt 12) field_defaults)
    by (cbv [field_defaults In]; tauto).
  assert (Hnone : (∅ : gmap string value) !! "hour" = None) by reflexivity.
  split; [rewrite Happ; reflexivity|].
  split; [rewrite Htotal; reflexivity|].
  split; [exact Hin|]. split; [exact Hnone|].
  exact (proj2 (Hdefault "hour" (VInt 12) Hin Hnone)).
Defined.

(** C5 as stated fails: a record whose amount is a string raises
    [TypeError] in both engines, with or without the other fields; and
    a record that holds nothing but a velocity count of 4301 digits
    raises [ValueError] in [app.py], where the demo engine scores it. *)
Lemma C5_counterexample :
  csv_row !! "hour" = None
  ∧ App.calculate_final_score (fun _ => "") (Dict csv_row) = Raise TypeError
  ∧ Demo.calculate_final_score (Dict csv_row) = Raise TypeError
  ∧ huge_velocity !! "amount" = None
  ∧ App.calculate_final_score (fun _ => "") (Dict huge_velocity) = Raise ValueError
  ∧ is_ok (Demo.calculate_final_score (Dict huge_velocity)) = true.
Proof.
  destruct int_print_limit as (_ & Hprint & Hgt).
  assert (Ha : huge_velocity !! "amount" = None)
    by (by apply lookup_singleton_ne).
  assert (Hh : huge_velocity !! "hour" = None)
    by (by apply lookup_singleton_ne).
  assert (Ht : huge_velocity !! "txns_last_1h" = Some (VInt huge_count))
    by apply lookup_singleton_eq.
  split; [vm_compute; reflexivity|]. split; [vm_compute; reflexivity|].
  split; [vm_compute; reflexivity|]. split; [exact Ha|].
  split; [by apply (app_velocity_unprintable _ _ huge_count)|].
  rewrite demo_calculate_fields. unfold number_or_absent.
  rewrite Ha, Hh, Ht. reflexivity.
Qed.

(** *** Explanations *)

(** C6, as the code has it.  The explanations are the descriptions of
    the triggered evaluators in declaration order: all of them in
    [app.py], the first three of them in [04_run_demo.py]; none when
    nothing triggers. *)
Theorem C6_explanations_in_declaration_order (float_repr : float → string)
    (t : pyobj) :
  (∀ r, App.calculate_final_score float_repr t = Ok r →
     App.explanations r
     = List.map description
         (List.filter (triggered t) (App.declared_rules float_repr t)))
  ∧ (∀ r, Demo.calculate_final_score t = Ok r →
     Demo.explanations r
     = take 3 (List.map description (List.filter (triggered t) Demo.rules)))
  ∧ (∀ r, App.calculate_final_score float_repr t = Ok r →
     List.filter (triggered t) (App.declared_rules float_repr t) = [] →
     App.explanations r = [])
  ∧ (∀ r, Demo.calculate_final_score t = Ok r →
     List.filter (triggered t) Demo.rules = [] →
     Demo.explanations r = []).
Proof.
  assert (Ha : ∀ r, App.calculate_final_score float_repr t = Ok r →
     App.explanations r
     = List.map description
         (List.filter (triggered t) (App.declared_rules float_repr t))).
  { intros r H. apply app_calculate_Ok in H as (raw & reasons & Hraw & _ & _ & ->).
    rewrite raw_score_as_table in Hraw. by apply apply_rules_Ok in Hraw as [_ ->]. }
  assert (Hd : ∀ r, Demo.calculate_final_score t = Ok r →
     Demo.explanations r
     = take 3 (List.map description (List.filter (triggered t) Demo.rules))).
  { intros r H. apply demo_calculate_Ok in H as (raw & reasons & Hraw & _ & _ & ->).
    by apply apply_rules_Ok in Hraw as [_ ->]. }
  split; [exact Ha|]. split; [exact Hd|]. split.
  - intros r H Hnone. by rewrite (Ha r H), Hnone.
  - intros r H Hnone. by rewrite (Hd r H), Hnone.
Qed.

(** On the ordinary transaction nothing triggers and both engines
    explain nothing. *)
Lemma C6_witness :
  ∃ ra rd,
    App.calculate_final_score (fun _ => "") (Dict normal_transaction) = Ok ra
    ∧ Demo.calculate_final_score (Dict normal_transaction) = Ok rd
    ∧ App.explanations ra = []
    ∧ Demo.explanations rd = [].
Proof.
  destruct (C6_explanations_in_declaration_order (fun _ => "")
              (Dict normal_transaction)) as (_ & _ & Ha & Hd).
  do 2 eexists.
  split; [vm_compute; reflexivity|].
  split; [vm_compute; reflexivity|].
  split; [apply Ha | apply Hd]; vm_compute; reflexivity.
Defined.

(** C6 as stated fails on [04_run_demo.py]: in the micropay scenario
    the velocity rule triggers, and its description is cut from the
    explanations. *)
Lemma C6_counterexample :
  triggered (Dict micropay_scam) Demo.r_high_velocity = true
  ∧ ∃ r, Demo.calculate_final_score (Dict micropay_scam) = Ok r
         ∧ ¬ In (description Demo.r_high_velocity) (Demo.explanations r).
Proof.
  split; [reflexivity|]. eexists. split; [vm_compute; reflexivity|].
  simpl. intros [H|[H|[H|[]]]]; discriminate H.
Qed.

(** *** Batches *)

Lemma app_batch_is_ok float_repr ts : ∀ i,
  is_ok (App.analyze_batch_from float_repr i ts)
  = forallb (fun t => is_ok (App.calculate_final_score float_repr t)) ts.
Proof.
  induction ts as [|t ts IH]; intros i; simpl; [done |].
  rewrite is_ok_bind.
  destruct (App.calculate_final_score float_repr t) as [r|e] eqn:Hr; [|done].
  destruct t as [d|v]; [|discriminate Hr].
  simpl. rewrite is_ok_bind, <- (IH (S i)).
  by destruct (App.analyze_batch_from float_repr (S i) ts).
Qed.

Lemma app_batch_length float_repr ts : ∀ i rows,
  App.analyze_batch_from float_repr i ts = Ok rows → length rows = length ts.
Proof.
  induction ts as [|t ts IH]; intros i rows H; simpl in H.
  - by inversion H.
  - apply bind_Ok in H as (r & _ & H). apply bind_Ok in H as (tid & _ & H).
    apply bind_Ok in H as (amt & _ & H). apply bind_Ok in H as (rest & Hrest & H).
    inversion H; subst. simpl. f_equal. by apply (IH (S i)).
Qed.

Lemma demo_batch_is_ok ts : ∀ i,
  is_ok (Demo.analyze_batch_from i ts)
  = forallb (fun t => is_ok (Demo.calculate_final_score t)) ts.
Proof.
  induction ts as [|t ts IH]; intros i; simpl; [done |].
  rewrite is_ok_bind.
  destruct (Demo.calculate_final_score t) as [r|e] eqn:Hr; [|done].
  destruct t as [d|v]; [|discriminate Hr].
  simpl. rewrite is_ok_bind, <- (IH (S i)).
  by destruct (Demo.analyze_batch_from (S i) ts).
Qed.

Lemma demo_batch_length ts : ∀ i rows,
  Demo.analyze_batch_from i ts = Ok rows → length rows = length ts.
Proof.
  induction ts as [|t ts IH]; intros i rows H; simpl in H.
  - by inversion H.
  - apply bind_Ok in H as (r & _ & H). apply bind_Ok in H as (tid & _ & H).
    apply bind_Ok in H as (rest & Hrest & H).
    inversion H; subst. simpl. f_equal. by apply (IH (S i)).
Qed.

(** C7, as the code has it.  [analyze_batch] is all or nothing: it
    returns rows exactly when every input scores without error, one row
    per input; a single input that raises makes the whole call raise,
    and no count of unprocessed inputs is kept. *)
Theorem C7_batch_all_or_nothing (float_repr : float → string) (ts : list pyobj) :
  is_ok (App.analyze_batch float_repr ts)
  = forallb (fun t => is_ok (App.calculate_final_score float_repr t)) ts
  ∧ (∀ rows, App.analyze_batch float_repr ts = Ok rows → length rows = length ts)
  ∧ is_ok (Demo.analyze_batch ts)
    = forallb (fun t => is_ok (Demo.calculate_final_score t)) ts
  ∧ (∀ rows, Demo.analyze_batch ts = Ok rows → length rows = length ts).
Proof.
  unfold App.analyze_batch, Demo.analyze_batch.
  split; [apply app_batch_is_ok|]. split; [apply app_batch_length|].
  split; [apply demo_batch_is_ok | apply demo_batch_length].
Qed.

Lemma C7_witness :
  ∃ rows,
    Demo.analyze_batch [Dict micropay_scam; Dict normal_transaction] = Ok rows
    ∧ length rows = 2%nat.
Proof.
  destruct (C7_batch_all_or_nothing (fun _ => "")
              [Dict micropay_scam; Dict normal_transaction]) as (_ & _ & _ & Hlen).
  eexists. split; [vm_compute; reflexivity|].
  apply Hlen. vm_compute; reflexivity.
Defined.

(** C7 as stated fails: of 50 inputs, 45 are records and 5 are not;
    instead of 45 rows, both engines raise on the first bad input. *)
Lemma C7_counterexample :
  length batch_of_50 = 50%nat
  ∧ length (List.filter is_record batch_of_50) = 45%nat
  ∧ App.analyze_batch (fun _ => "") batch_of_50 = Raise AttributeError
  ∧ Demo.analyze_batch batch_of_50 = Raise AttributeError.
Proof. repeat split; vm_compute; reflexivity. Qed.

(** *** Startup and thresholds *)

Lemma train_predict_is_ok self t :
  is_ok (Train.predict self t) = is_ok (Train.raw_score self t).
Proof.
  unfold Train.predict. rewrite is_ok_bind.
  destruct (Train.raw_score self t) as [[raw reasons]|e]; [|done].
  by destruct (Train.classify self (Z.min raw 100)).
Qed.

(** C8, as the code has it.  Nothing is validated at startup.  The
    constructor always builds the thresholds HIGH 70, MEDIUM 40, LOW 0,
    which are the bands of [RISK_LEVELS], and those bands are
    contiguous, non-overlapping and cover [0,100]; loading a stored
    scorer returns it as it is, and whether [predict] serves a request
    does not depend on the thresholds the detector holds. *)
Theorem C8_no_startup_validation :
  spec_bands_well_formed Config.RISK_LEVELS = true
  ∧ bands_of_thresholds (Train.thresholds Train.init) = Config.RISK_LEVELS
  ∧ (∀ s, Startup.load_scorer (Some s) = Startup.Loaded s)
  ∧ (∀ th t,
       is_ok (Train.predict {| Train.rules := Train.rules Train.init;
                               Train.thresholds := th |} t)
       = is_ok (Train.predict Train.init t)).
Proof.
  split; [reflexivity|]. split; [reflexivity|]. split; [reflexivity|].
  intros th t. by rewrite !train_predict_is_ok.
Qed.

(** C8 as stated fails: a stored scorer with crossed thresholds is
    loaded without complaint and goes on to score; a score of 55 lands
    in HIGH. *)
Lemma C8_counterexample :
  spec_bands_well_formed (bands_of_thresholds crossed_thresholds) = false
  ∧ Startup.load_scorer (Some crossed_scorer) = Startup.Loaded crossed_scorer
  ∧ Train.calculate_final_score crossed_scorer (Dict micropay_scam)
    = Ok {| Train.risk_score := 55;
            Train.risk_level := HIGH;
            Train.suggested_action := "BLOCK - Requires additional verification";
            Train.rules_triggered :=
              ["Amount > ₹10,000"; "Transaction during late night (12AM-6AM)"] |}.
Proof. repeat split; vm_compute; reflexivity. Qed.

(** *** Synthetic identifiers *)

(** In [app.py] the record at position [i] of a batch, when it has no
    [transaction_id], is given ["TXN_"] followed by [i] zero-filled to
    six digits. *)
Lemma app_synthetic_id float_repr ts : ∀ start rows i d,
  App.analyze_batch_from float_repr start ts = Ok rows →
  ts !! i = Some (Dict d) →
  d !! "transaction_id" = None →
  App.transaction_id <$> rows !! i
  = Some (VStr ("TXN_" +:+ fmt_06d (start + i))).
Proof.
  induction ts as [|t ts IH]; intros start rows i d H Hi Hd; [done|].
  simpl in H.
  apply bind_Ok in H as (r & _ & H). apply bind_Ok in H as (tid & Htid & H).
  apply bind_Ok in H as (amt & _ & H). apply bind_Ok in H as (rest & Hrest & H).
  inversion H; subst; clear H.
  destruct i as [|i]; simpl in *.
  - inversion Hi; subst. rewrite get_Dict, Hd in Htid. inversion Htid.
    by rewrite Nat.add_0_r.
  - rewrite (IH (S start) rest i d Hrest Hi Hd). do 3 f_equal. f_equal. lia.
Qed.

(** C9 on four records without identifier.  [app.py] numbers them
    TXN_000000 to TXN_000003; [04_run_demo.py] and the [SimpleScorer]
    of [03_train_models.py] format the bare index and give TXN_0 to
    TXN_3. *)
Theorem C9_synthetic_ids :
  (∃ rows, App.analyze_batch (fun _ => "") four_anonymous = Ok rows
     ∧ List.map App.transaction_id rows
       = [VStr "TXN_000000"; VStr "TXN_000001"; VStr "TXN_000002";
          VStr "TXN_000003"])
  ∧ (∃ rows, Demo.analyze_batch four_anonymous = Ok rows
     ∧ List.map Demo.transaction_id rows
       = [VStr "TXN_0"; VStr "TXN_1"; VStr "TXN_2"; VStr "TXN_3"])
  ∧ (∃ rows, Train.analyze_batch Startup.trained four_anonymous = Ok rows
     ∧ List.map Train.transaction_id rows
       = [VStr "TXN_0"; VStr "TXN_1"; VStr "TXN_2"; VStr "TXN_3"]).
Proof.
  repeat split; eexists; (split; [vm_compute; reflexivity|]); reflexivity.
Qed.

(** *** Strict thresholds *)




(** ** Further properties of the batch evaluators *)

(** What [analyze_batch] stores at position [i]: the row built from the
    score of the [i]-th input, its identifier (or the synthetic one for
    that position) and, in [app.py], its amount. *)
Lemma app_batch_lookup float_repr ts : ∀ start rows i t,
  App.analyze_batch_from float_repr start ts = Ok rows →
  ts !! i = Some t →
  ∃ res tid amt,
    App.calculate_final_score float_repr t = Ok res
    ∧ get t "transaction_id" (VStr ("TXN_" +:+ fmt_06d (start + i))) = Ok tid
    ∧ get t "amount" (VInt 0) = Ok amt
    ∧ rows !! i
      = Some {| App.transaction_id := tid;
                App.amount := amt;
                App.row_risk_score := App.risk_score res;
                App.row_risk_level := App.risk_level res;
                App.row_suggested_action := App.suggested_action res;
                App.top_reason := top_reason_of (App.explanations res) |}.
Proof.
  induction ts as [|t0 ts IH]; intros start rows i t H Hi; [done|].
  simpl in H.
  apply bind_Ok in H as (r & Hr & H). apply bind_Ok in H as (tid & Htid & H).
  apply bind_Ok in H as (amt & Hamt & H). apply bind_Ok in H as (rest & Hrest & H).
  inversion H; subst; clear H.
  destruct i as [|i]; simpl in Hi.
  - inversion Hi; subst. exists r, tid, amt. by rewrite Nat.add_0_r.
  - destruct (IH (S start) rest i t Hrest Hi) as (res & tid' & amt' & ? & ? & ? & ?).
    exists res, tid', amt'. by replace (start + S i)%nat with (S start + i)%nat by lia.
Qed.

Lemma demo_batch_lookup ts : ∀ start rows i t,
  Demo.analyze_batch_from start ts = Ok rows →
  ts !! i = Some t →
  ∃ res tid,
    Demo.calculate_final_score t = Ok res
    ∧ get t "transaction_id" (VStr ("TXN_" +:+ str_nat (start + i))) = Ok tid
    ∧ rows !! i
      = Some {| Demo.transaction_id := tid;
                Demo.row_risk_score := Demo.risk_score res;
                Demo.row_risk_level := Demo.risk_level res;
                Demo.row_suggested_action := Demo.suggested_action res;
                Demo.top_reason := top_reason_of (Demo.explanations res) |}.
Proof.
  induction ts as [|t0 ts IH]; intros start rows i t H Hi; [done|].
  simpl in H.
  apply bind_Ok in H as (r & Hr & H). apply bind_Ok in H as (tid & Htid & H).
  apply bind_Ok in H as (rest & Hrest & H).
  inversion H; subst; clear H.
  destruct i as [|i]; simpl in Hi.
  - inversion Hi; subst. exists r, tid. by rewrite Nat.add_0_r.
  - destruct (IH (S start) rest i t Hrest Hi) as (res & tid' & ? & ? & ?).
    exists res, tid'. by replace (start + S i)%nat with (S start + i)%nat by lia.
Qed.

Lemma train_batch_lookup self ts : ∀ start rows i t,
  Train.analyze_batch_from self start ts = Ok rows →
  ts !! i = Some t →
  ∃ res tid,
    Train.predict (Train.model self) t = Ok res
    ∧ get t "transaction_id" (VStr ("TXN_" +:+ str_nat (start + i))) = Ok tid
    ∧ rows !! i
      = Some {| Train.transaction_id := tid;
                Train.row_risk_score := Train.risk_score res;
                Train.row_risk_level := Train.risk_level res;
                Train.row_suggested_action := Train.suggested_action res |}.
Proof.
  induction ts as [|t0 ts IH]; intros start rows i t H Hi; [done|].
  simpl in H.
  apply bind_Ok in H as (r & Hr & H). apply bind_Ok in H as (tid & Htid & H).
  apply bind_Ok in H as (rest & Hrest & H).
  inversion H; subst; clear H.
  destruct i as [|i]; simpl in Hi.
  - inversion Hi; subst. exists r, tid. by rewrite Nat.add_0_r.
  - destruct (IH (S start) rest i t Hrest Hi) as (res & tid' & ? & ? & ?).
    exists res, tid'. by replace (start + S i)%nat with (S start + i)%nat by lia.
Qed.

Lemma train_batch_length self ts : ∀ i rows,
  Train.analyze_batch_from self i ts = Ok rows → length rows = length ts.
Proof.
  induction ts as [|t ts IH]; intros i rows H; simpl in H.
  - by inversion H.
  - apply bind_Ok in H as (r & _ & H). apply bind_Ok in H as (tid & _ & H).
    apply bind_Ok in H as (rest & Hrest & H).
    inversion H; subst. simpl. f_equal. by apply (IH (S i)).
Qed.

(** X1. Order is kept: when a batch is analysed, the row at position
    [i] carries the score, tier and action of the [i]-th input, in each
    of the three engines. *)
Theorem batch_rows_follow_input_order (float_repr : float → string)
    (ts : list pyobj) (i : nat) (t : pyobj) :
  ts !! i = Some t →
  (∀ rows, App.analyze_batch float_repr ts = Ok rows →
     ∃ res row, App.calculate_final_score float_repr t = Ok res
       ∧ rows !! i = Some row
       ∧ App.row_risk_score row = App.risk_score res
       ∧ App.row_risk_level row = App.risk_level res
       ∧ App.row_suggested_action row = App.suggested_action res)
  ∧ (∀ rows, Demo.analyze_batch ts = Ok rows →
     ∃ res row, Demo.calculate_final_score t = Ok res
       ∧ rows !! i = Some row
       ∧ Demo.row_risk_score row = Demo.risk_score res
       ∧ Demo.row_risk_level row = Demo.risk_level res
       ∧ Demo.row_suggested_action row = Demo.suggested_action res)
  ∧ (∀ self rows, Train.analyze_batch self ts = Ok rows →
     ∃ res row, Train.calculate_final_score self t = Ok res
       ∧ rows !! i = Some row
       ∧ Train.row_risk_score row = Train.risk_score res
       ∧ Train.row_risk_level row = Train.risk_level res
       ∧ Train.row_suggested_action row = Train.suggested_action res).
Proof.
  intros Hi. split; [|split].
  - intros rows H.
    destruct (app_batch_lookup _ _ _ _ _ _ H Hi) as (res & tid & amt & Hr & _ & _ & Hrow).
    exists res. eexists. by repeat split.
  - intros rows H.
    destruct (demo_batch_lookup _ _ _ _ _ H Hi) as (res & tid & Hr & _ & Hrow).
    exists res. eexists. by repeat split.
  - intros self rows H.
    destruct (train_batch_lookup _ _ _ _ _ _ H Hi) as (res & tid & Hr & _ & Hrow).
    exists res. eexists. by repeat split.
Qed.

Lemma batch_rows_follow_input_order_witness :
  ∃ res row,
    Demo.calculate_final_score (Dict micropay_scam) = Ok res
    ∧ Demo.row_risk_score row = Demo.risk_score res
    ∧ Demo.row_risk_level row = HIGH.
Proof.
  assert (Hi : [Dict normal_transaction; Dict micropay_scam] !! 1%nat
               = Some (Dict micropay_scam)) by reflexivity.
  destruct (batch_rows_follow_input_order (fun _ => "") _ _ _ Hi)
    as (_ & Hd & _).
  destruct (Hd _ eq_refl) as (res & row & Hres & _ & Hs & Hl & _).
  exists res, row. split; [exact Hres|]. split; [exact Hs|].
  rewrite Hl. vm_compute in Hres. by inversion Hres.
Defined.

(** X2. Identifiers and amounts of the rows: a [transaction_id] the
    input carries is copied as it is, whatever its type; a missing one
    becomes [TXN_] plus the position, zero-filled to six digits in
    [app.py] and bare in the two scripts; [app.py] also copies the
    amount, 0 when it is missing. *)
Theorem batch_row_identifier (float_repr : float → string)
    (ts : list pyobj) (i : nat) (d : gmap string value) :
  ts !! i = Some (Dict d) →
  (∀ rows, App.analyze_batch float_repr ts = Ok rows →
     ∃ row, rows !! i = Some row
       ∧ App.transaction_id row
         = match d !! "transaction_id" with
           | Some v => v
           | None => VStr ("TXN_" +:+ fmt_06d i)
           end
       ∧ App.amount row
         = match d !! "amount" with Some v => v | None => VInt 0 end)
  ∧ (∀ rows, Demo.analyze_batch ts = Ok rows →
     ∃ row, rows !! i = Some row
       ∧ Demo.transaction_id row
         = match d !! "transaction_id" with
           | Some v => v
           | None => VStr ("TXN_" +:+ str_nat i)
           end)
  ∧ (∀ self rows, Train.analyze_batch self ts = Ok rows →
     ∃ row, rows !! i = Some row
       ∧ Train.transaction_id row
         = match d !! "transaction_id" with
           | Some v => v
           | None => VStr ("TXN_" +:+ str_nat i)
           end).
Proof.
  intros Hi. split; [|split].
  - intros rows H.
    destruct (app_batch_lookup _ _ _ _ _ _ H Hi)
      as (res & tid & amt & _ & Htid & Hamt & Hrow).
    rewrite get_Dict in Htid, Hamt. inversion Htid. inversion Hamt.
    eexists. split; [exact Hrow|]. done.
  - intros rows H.
    destruct (demo_batch_lookup _ _ _ _ _ H Hi) as (res & tid & _ & Htid & Hrow).
    rewrite get_Dict in Htid. inversion Htid.
    eexists. split; [exact Hrow|]. done.
  - intros self rows H.
    destruct (train_batch_lookup _ _ _ _ _ _ H Hi) as (res & tid & _ & Htid & Hrow).
    rewrite get_Dict in Htid. inversion Htid.
    eexists. split; [exact Hrow|]. done.
Qed.

Lemma batch_row_identifier_witness :
  ∃ rows row,
    App.analyze_batch (fun _ => "")
      [Dict (<["transaction_id" := VInt 7]> normal_transaction); Dict micropay_scam]
    = Ok rows
    ∧ rows !! 0%nat = Some row
    ∧ App.transaction_id row = VInt 7
    ∧ App.amount row = VInt 1500.
Proof.
  assert (Hi : [Dict (<["transaction_id" := VInt 7]> normal_transaction);
                Dict micropay_scam] !! 0%nat
               = Some (Dict (<["transaction_id" := VInt 7]> normal_transaction)))
    by reflexivity.
  destruct (batch_row_identifier (fun _ => "") _ _ _ Hi) as (Ha & _ & _).
  destruct (Ha _ eq_refl) as (row & Hrow & Htid & Hamt).
  eexists. exists row. split; [reflexivity|].
  split; [exact Hrow|]. split; [exact Htid | exact Hamt].
Defined.

(** *** Synthetic identifiers can be read back *)

Lemma to_uint_nonnil (n : nat) : Nat.to_uint n ≠ Decimal.Nil.
Proof.
  intros H. pose proof (Unsigned.to_of (Nat.to_uint n)) as E.
  rewrite Unsigned.of_to, H in E. discriminate E.
Qed.

Lemma decode_str_nat (i : nat) : decode_index (str_nat i) = Some i.
Proof.
  unfold decode_index, str_nat.
  pose proof (NilZero.usu _ (to_uint_nonnil i)) as H.
  unfold NilZero.uint_of_string in H.
  destruct (NilZero.string_of_uint (Nat.to_uint i)) as [|a s]; [discriminate H|].
  rewrite H. simpl. by rewrite Unsigned.of_to.
Qed.

Lemma decode_zeros (k : nat) (s : string) :
  decode_index (zeros k +:+ s) = decode_index s.
Proof.
  induction k as [|k IH]; [done|].
  rewrite <- IH. unfold decode_index.
  change (zeros (S k) +:+ s)
    with (String (Ascii.Ascii false false false false true true false false)
            (zeros k +:+ s)).
  cbn [NilEmpty.uint_of_string].
  by destruct (NilEmpty.uint_of_string (zeros k +:+ s)).
Qed.

Lemma decode_fmt_06d (i : nat) : decode_index (fmt_06d i) = Some i.
Proof. unfold fmt_06d. by rewrite decode_zeros, decode_str_nat. Qed.

(** X3. Within one batch, two records without [transaction_id] at
    different positions never receive the same synthetic identifier,
    padded or not. *)
Theorem synthetic_ids_distinct (float_repr : float → string)
    (ts : list pyobj) (i j : nat) (di dj : gmap string value) :
  i ≠ j →
  ts !! i = Some (Dict di) → di !! "transaction_id" = None →
  ts !! j = Some (Dict dj) → dj !! "transaction_id" = None →
  (∀ rows, App.analyze_batch float_repr ts = Ok rows →
     App.transaction_id <$> rows !! i ≠ App.transaction_id <$> rows !! j)
  ∧ (∀ rows, Demo.analyze_batch ts = Ok rows →
     Demo.transaction_id <$> rows !! i ≠ Demo.transaction_id <$> rows !! j)
  ∧ (∀ self rows, Train.analyze_batch self ts = Ok rows →
     Train.transaction_id <$> rows !! i ≠ Train.transaction_id <$> rows !! j).
Proof.
  intros Hne Hi Hdi Hj Hdj. split; [|split].
  - intros rows H.
    destruct (app_batch_lookup _ _ _ _ _ _ H Hi) as (? & ti & ? & _ & Hti & _ & ->).
    destruct (app_batch_lookup _ _ _ _ _ _ H Hj) as (? & tj & ? & _ & Htj & _ & ->).
    rewrite get_Dict, Hdi in Hti. rewrite get_Dict, Hdj in Htj. simpl.
    inversion Hti; inversion Htj; subst. intros [= E].
    change (fmt_06d (0 + i) = fmt_06d (0 + j)) in E.
    apply Hne. apply (f_equal decode_index) in E.
    rewrite !decode_fmt_06d in E. by inversion E.
  - intros rows H.
    destruct (demo_batch_lookup _ _ _ _ _ H Hi) as (? & ti & _ & Hti & ->).
    destruct (demo_batch_lookup _ _ _ _ _ H Hj) as (? & tj & _ & Htj & ->).
    rewrite get_Dict, Hdi in Hti. rewrite get_Dict, Hdj in Htj. simpl.
    inversion Hti; inversion Htj; subst. intros [= E].
    change (str_nat (0 + i) = str_nat (0 + j)) in E.
    apply Hne. apply (f_equal decode_index) in E.
    rewrite !decode_str_nat in E. by inversion E.
  - intros self rows H.
    destruct (train_batch_lookup _ _ _ _ _ _ H Hi) as (? & ti & _ & Hti & ->).
    destruct (train_batch_lookup _ _ _ _ _ _ H Hj) as (? & tj & _ & Htj & ->).
    rewrite get_Dict, Hdi in Hti. rewrite get_Dict, Hdj in Htj. simpl.
    inversion Hti; inversion Htj; subst. intros [= E].
    change (str_nat (0 + i) = str_nat (0 + j)) in E.
    apply Hne. apply (f_equal decode_index) in E.
    rewrite !decode_str_nat in E. by inversion E.
Qed.

Lemma synthetic_ids_distinct_witness :
  ∃ rows, Demo.analyze_batch four_anonymous = Ok rows
    ∧ Demo.transaction_id <$> rows !! 1%nat ≠ Demo.transaction_id <$> rows !! 3%nat.
Proof.
  assert (Hne : 1%nat ≠ 3%nat) by discriminate.
  assert (H1 : four_anonymous !! 1%nat = Some (Dict ∅)) by reflexivity.
  assert (H3 : four_anonymous !! 3%nat = Some (Dict ∅)) by reflexivity.
  assert (Hnone : (∅ : gmap string value) !! "transaction_id" = None) by reflexivity.
  eexists. split; [vm_compute; reflexivity|].
  apply (proj1 (proj2 (synthetic_ids_distinct (fun _ => "") _ _ _ _ _
                          Hne H1 Hnone H3 Hnone))).
  vm_compute; reflexivity.
Defined.

(** *** Errors and prefixes *)

(** Only a dictionary gets past the first [get]. *)
Lemma app_calculate_Dict float_repr t r :
  App.calculate_final_score float_repr t = Ok r → ∃ d, t = Dict d.
Proof. destruct t as [d|v]; [eauto | discriminate]. Qed.

Lemma demo_calculate_Dict t r :
  Demo.calculate_final_score t = Ok r → ∃ d, t = Dict d.
Proof. destruct t as [d|v]; [eauto | discriminate]. Qed.

Lemma app_batch_raise float_repr ts : ∀ start e,
  App.analyze_batch_from float_repr start ts = Raise e
  ↔ ∃ pre t post, ts = pre ++ t :: post
      ∧ Forall (fun t' => is_ok (App.calculate_final_score float_repr t') = true) pre
      ∧ App.calculate_final_score float_repr t = Raise e.
Proof.
  induction ts as [|t0 ts IH]; intros start e.
  - split; [discriminate|]. intros (pre & t & post & Hts & _).
    by destruct pre.
  - cbn [App.analyze_batch_from].
    destruct (App.calculate_final_score float_repr t0) as [r|e0] eqn:Hr.
    + destruct (app_calculate_Dict _ _ _ Hr) as [d ->]. cbn [bind get].
      destruct (App.analyze_batch_from float_repr (S start) ts) as [rows|e1] eqn:Hrest.
      * split; [discriminate|]. intros (pre & t & post & Hts & Hpre & Ht).
        destruct pre as [|p pre]; simpl in Hts; inversion Hts; subst.
        -- rewrite Hr in Ht. discriminate.
        -- exfalso. inversion Hpre; subst.
           assert (Hx : ∃ pre0 t0 post0, pre ++ t :: post = pre0 ++ t0 :: post0
                     ∧ Forall (fun t' => is_ok (App.calculate_final_score float_repr t') = true) pre0
                     ∧ App.calculate_final_score float_repr t0 = Raise e)
             by (by exists pre, t, post).
           apply (IH (S start)) in Hx. rewrite Hrest in Hx. discriminate Hx.
      * cbn [bind]. split.
        -- intros [= <-]. apply IH in Hrest as (pre & t & post & -> & Hpre & Ht).
           exists (Dict d :: pre), t, post. split; [done|]. split; [|done].
           constructor; [by rewrite Hr | done].
        -- intros (pre & t & post & Hts & Hpre & Ht).
           destruct pre as [|p pre]; simpl in Hts; inversion Hts; subst.
           ++ rewrite Hr in Ht. discriminate.
           ++ rewrite <- Hrest. apply IH.
              exists pre, t, post. by inversion Hpre.
    + cbn [bind]. split.
      * intros [= <-]. by exists [], t0, ts.
      * intros (pre & t & post & Hts & Hpre & Ht).
        destruct pre as [|p pre]; simpl in Hts; inversion Hts; subst.
        -- rewrite Hr in Ht. by inversion Ht.
        -- inversion Hpre; subst. rewrite Hr in *. discriminate.
Qed.

Lemma demo_batch_raise ts : ∀ start e,
  Demo.analyze_batch_from start ts = Raise e
  ↔ ∃ pre t post, ts = pre ++ t :: post
      ∧ Forall (fun t' => is_ok (Demo.calculate_final_score t') = true) pre
      ∧ Demo.calculate_final_score t = Raise e.
Proof.
  induction ts as [|t0 ts IH]; intros start e.
  - split; [discriminate|]. intros (pre & t & post & Hts & _).
    by destruct pre.
  - cbn [Demo.analyze_batch_from].
    destruct (Demo.calculate_final_score t0) as [r|e0] eqn:Hr.
    + destruct (demo_calculate_Dict _ _ Hr) as [d ->]. cbn [bind get].
      destruct (Demo.analyze_batch_from (S start) ts) as [rows|e1] eqn:Hrest.
      * split; [discriminate|]. intros (pre & t & post & Hts & Hpre & Ht).
        destruct pre as [|p pre]; simpl in Hts; inversion Hts; subst.
        -- rewrite Hr in Ht. discriminate.
        -- exfalso. inversion Hpre; subst.
           assert (Hx : ∃ pre0 t0 post0, pre ++ t :: post = pre0 ++ t0 :: post0
                     ∧ Forall (fun t' => is_ok (Demo.calculate_final_score t') = true) pre0
                     ∧ Demo.calculate_final_score t0 = Raise e)
             by (by exists pre, t, post).
           apply (IH (S start)) in Hx. rewrite Hrest in Hx. discriminate Hx.
      * cbn [bind]. split.
        -- intros [= <-]. apply IH in Hrest as (pre & t & post & -> & Hpre & Ht).
           exists (Dict d :: pre), t, post. split; [done|]. split; [|done].
           constructor; [by rewrite Hr | done].
        -- intros (pre & t & post & Hts & Hpre & Ht).
           destruct pre as [|p pre]; simpl in Hts; inversion Hts; subst.
           ++ rewrite Hr in Ht. discriminate.
           ++ rewrite <- Hrest. apply IH.
              exists pre, t, post. by inversion Hpre.
    + cbn [bind]. split.
      * intros [= <-]. by exists [], t0, ts.
      * intros (pre & t & post & Hts & Hpre & Ht).
        destruct pre as [|p pre]; simpl in Hts; inversion Hts; subst.
        -- rewrite Hr in Ht. by inversion Ht.
        -- inversion Hpre; subst. rewrite Hr in *. discriminate.
Qed.

(** X4. A batch raises exactly the error of its first input that
    cannot be scored: [analyze_batch] raises [e] if and only if some
    input raises [e] and every input before it scores. *)
Theorem batch_raises_first_error (float_repr : float → string)
    (ts : list pyobj) (e : exn) :
  (App.analyze_batch float_repr ts = Raise e
   ↔ ∃ pre t post, ts = pre ++ t :: post
       ∧ Forall (fun t' => is_ok (App.calculate_final_score float_repr t') = true) pre
       ∧ App.calculate_final_score float_repr t = Raise e)
  ∧ (Demo.analyze_batch ts = Raise e
     ↔ ∃ pre t post, ts = pre ++ t :: post
         ∧ Forall (fun t' => is_ok (Demo.calculate_final_score t') = true) pre
         ∧ Demo.calculate_final_score t = Raise e).
Proof. split; [apply app_batch_raise | apply demo_batch_raise]. Qed.

(** A string amount in second place, a non-record in third: the batch
    raises the [TypeError] of the former. *)
Lemma batch_raises_first_error_witness :
  Demo.analyze_batch
    [Dict normal_transaction; Dict csv_row; Scalar VNone; Dict micropay_scam]
  = Raise TypeError.
Proof.
  apply (proj2 (batch_raises_first_error (fun _ => "") _ TypeError)).
  exists [Dict normal_transaction], (Dict csv_row), [Scalar VNone; Dict micropay_scam].
  split; [reflexivity|]. split; [|reflexivity].
  constructor; [reflexivity | constructor].
Defined.

Lemma app_batch_take float_repr ts : ∀ start rows n,
  App.analyze_batch_from float_repr start ts = Ok rows →
  App.analyze_batch_from float_repr start (take n ts) = Ok (take n rows).
Proof.
  induction ts as [|t ts IH]; intros start rows n H; simpl in H.
  - inversion H. by destruct n.
  - apply bind_Ok in H as (r & Hr & H). apply bind_Ok in H as (tid & Htid & H).
    apply bind_Ok in H as (amt & Hamt & H). apply bind_Ok in H as (rest & Hrest & H).
    inversion H; subst. destruct n as [|n]; [done|].
    cbn [take App.analyze_batch_from]. rewrite Hr. cbn [bind].
    rewrite Htid, Hamt. cbn [bind]. by rewrite (IH _ _ n Hrest).
Qed.

Lemma demo_batch_take ts : ∀ start rows n,
  Demo.analyze_batch_from start ts = Ok rows →
  Demo.analyze_batch_from start (take n ts) = Ok (take n rows).
Proof.
  induction ts as [|t ts IH]; intros start rows n H; simpl in H.
  - inversion H. by destruct n.
  - apply bind_Ok in H as (r & Hr & H). apply bind_Ok in H as (tid & Htid & H).
    apply bind_Ok in H as (rest & Hrest & H).
    inversion H; subst. destruct n as [|n]; [done|].
    cbn [take Demo.analyze_batch_from]. rewrite Hr. cbn [bind].
    rewrite Htid. cbn [bind]. by rewrite (IH _ _ n Hrest).
Qed.

Lemma train_batch_take self ts : ∀ start rows n,
  Train.analyze_batch_from self start ts = Ok rows →
  Train.analyze_batch_from self start (take n ts) = Ok (take n rows).
Proof.
  induction ts as [|t ts IH]; intros start rows n H; simpl in H.
  - inversion H. by destruct n.
  - apply bind_Ok in H as (r & Hr & H). apply bind_Ok in H as (tid & Htid & H).
    apply bind_Ok in H as (rest & Hrest & H).
    inversion H; subst. destruct n as [|n]; [done|].
    cbn [take Train.analyze_batch_from]. rewrite Hr. cbn [bind].
    rewrite Htid. cbn [bind]. by rewrite (IH _ _ n Hrest).
Qed.

(** X5. Analysing the first [n] inputs only, as the callers do with
    [sample_data[:20]] and [sample_data[:50]], gives the first [n] rows
    of the full analysis, identifiers included. *)
Theorem batch_of_prefix (float_repr : float → string) (ts : list pyobj) (n : nat) :
  (∀ rows, App.analyze_batch float_repr ts = Ok rows →
     App.analyze_batch float_repr (take n ts) = Ok (take n rows))
  ∧ (∀ rows, Demo.analyze_batch ts = Ok rows →
     Demo.analyze_batch (take n ts) = Ok (take n rows))
  ∧ (∀ self rows, Train.analyze_batch self ts = Ok rows →
     Train.analyze_batch self (take n ts) = Ok (take n rows)).
Proof.
  split; [|split]; intros; [by apply app_batch_take | by apply demo_batch_take
                            | by apply train_batch_take].
Qed.

Lemma batch_of_prefix_witness :
  ∃ rows,
    Demo.analyze_batch [Dict micropay_scam; Dict normal_transaction; Dict velocity_attack]
    = Ok rows
    ∧ Demo.analyze_batch [Dict micropay_scam; Dict normal_transaction]
      = Ok (take 2 rows).
Proof.
  eexists. split; [vm_compute; reflexivity|].
  apply (proj1 (proj2 (batch_of_prefix (fun _ => "")
     [Dict micropay_scam; Dict normal_transaction; Dict velocity_attack] 2))).
  vm_compute; reflexivity.
Defined.

(** *** The leading reason *)

Lemma top_reason_of_take (n : nat) (l : list string) :
  top_reason_of (take (S n) l) = top_reason_of l.
Proof. by destruct l. Qed.

(** X6. The [top_reason] of a batch row is the description of the
    first evaluator, in declaration order, that the input triggers, and
    ['No specific risk factors'] when it triggers none; cutting the
    explanations to three does not change it. *)
Theorem batch_top_reason (float_repr : float → string)
    (ts : list pyobj) (i : nat) (t : pyobj) :
  ts !! i = Some t →
  (∀ rows, App.analyze_batch float_repr ts = Ok rows →
     App.top_reason <$> rows !! i
     = Some (match List.filter (triggered t) (App.declared_rules float_repr t) with
             | r :: _ => description r
             | [] => "No specific risk factors"
             end))
  ∧ (∀ rows, Demo.analyze_batch ts = Ok rows →
     Demo.top_reason <$> rows !! i
     = Some (match List.filter (triggered t) Demo.rules with
             | r :: _ => description r
             | [] => "No specific risk factors"
             end)).
Proof.
  intros Hi. split.
  - intros rows H.
    destruct (app_batch_lookup _ _ _ _ _ _ H Hi) as (res & ? & ? & Hr & _ & _ & ->).
    apply app_calculate_Ok in Hr as (raw & reasons & Hraw & _ & _ & Hex).
    rewrite raw_score_as_table in Hraw. apply apply_rules_Ok in Hraw as [_ ->].
    cbn [fmap option_fmap option_map App.top_reason]. rewrite Hex. cbn [app].
    f_equal. by destruct (List.filter (triggered t) _).
  - intros rows H.
    destruct (demo_batch_lookup _ _ _ _ _ H Hi) as (res & ? & Hr & _ & ->).
    apply demo_calculate_Ok in Hr as (raw & reasons & Hraw & _ & _ & Hex).
    apply apply_rules_Ok in Hraw as [_ ->].
    cbn [fmap option_fmap option_map Demo.top_reason].
    rewrite Hex, top_reason_of_take. cbn [app].
    f_equal. by destruct (List.filter (triggered t) _).
Qed.

Lemma batch_top_reason_witness :
  ∃ rows,
    Demo.analyze_batch [Dict normal_transaction; Dict micropay_scam] = Ok rows
    ∧ Demo.top_reason <$> rows !! 1%nat = Some "Amount > ₹10,000".
Proof.
  assert (Hi : [Dict normal_transaction; Dict micropay_scam] !! 1%nat
               = Some (Dict micropay_scam)) by reflexivity.
  eexists. split; [vm_compute; reflexivity|].
  apply (proj2 (batch_top_reason (fun _ => "") _ _ _ Hi)).
  vm_compute; reflexivity.
Defined.

(** ** Further properties of the scores *)

(** In [app.py] the lower amount tier fires only where the demo's two
    amount rules split: above 10,000 but not above 50,000. *)
Lemma app_lower_amount_tier t :
  triggered t App.e_amount_gt_10000 = true →
  triggered t Demo.r_amount_gt_10000 = true
  ∧ triggered t Demo.r_amount_gt_50000 = false.
Proof.
  unfold triggered. cbn [condition App.e_amount_gt_10000 Demo.r_amount_gt_10000
                         Demo.r_amount_gt_50000].
  destruct (get t "amount" (VInt 0)) as [v|]; cbn [bind]; [|discriminate].
  destruct (py_gt v 50000) as [[|]|]; cbn [bind]; try discriminate.
  destruct (py_gt v 10000) as [[|]|]; done.
Qed.

(** The velocity evaluator of [app.py] also has to print the count. *)
Lemma app_velocity_triggered float_repr t :
  triggered t (App.e_high_velocity float_repr t) = true →
  triggered t Demo.r_high_velocity = true.
Proof.
  unfold triggered. cbn [condition App.e_high_velocity Demo.r_high_velocity].
  destruct (get t "txns_last_1h" (VInt 0)) as [v|]; cbn [bind]; [|discriminate].
  destruct (py_gt v 5) as [[|]|]; cbn [bind]; done.
Qed.

(** The fallback of [app.py] never adds more than the demo engine. *)
Lemma app_raw_le_demo_raw float_repr t :
  sum_points (List.filter (triggered t) (App.declared_rules float_repr t))
  <= sum_points (List.filter (triggered t) Demo.rules).
Proof.
  unfold App.declared_rules, Demo.rules. cbn [List.filter].
  change (triggered t App.e_amount_gt_50000)
    with (triggered t Demo.r_amount_gt_50000).
  change (triggered t App.e_hour_lt_6) with (triggered t Demo.r_hour_lt_6).
  change (triggered t App.e_new_recipient) with (triggered t Demo.r_new_recipient).
  pose proof (app_lower_amount_tier t) as Hlow.
  pose proof (app_velocity_triggered float_repr t) as Hvel.
  destruct (triggered t App.e_amount_gt_10000);
    [destruct (Hlow eq_refl) as [-> ->] | clear Hlow];
    (destruct (triggered t (App.e_high_velocity float_repr t));
       [rewrite (Hvel eq_refl) | clear Hvel]);
    destruct (triggered t Demo.r_amount_gt_50000),
      (triggered t Demo.r_amount_gt_10000), (triggered t Demo.r_hour_lt_6),
      (triggered t Demo.r_hour_gt_22), (triggered t Demo.r_new_recipient),
      (triggered t Demo.r_high_velocity);
    cbn [sum_points foldr points App.e_amount_gt_50000 App.e_amount_gt_10000
         App.e_hour_lt_6 App.e_high_velocity App.e_new_recipient
         Demo.r_amount_gt_50000 Demo.r_amount_gt_10000 Demo.r_hour_lt_6
         Demo.r_hour_gt_22 Demo.r_new_recipient Demo.r_high_velocity]; lia.
Qed.

(** Where the demo engine scores, [app.py] scores too unless it cannot
    print the velocity count. *)
Lemma app_demo_failures float_repr t :
  is_ok (App.calculate_final_score float_repr t)
  = is_ok (Demo.calculate_final_score t) && velocity_printable_in t.
Proof.
  rewrite app_calculate_is_ok, demo_calculate_is_ok.
  destruct t as [d|v]; [|reflexivity].
  cbn [forallb App.declared_rules Demo.rules condition App.e_amount_gt_50000
       App.e_amount_gt_10000 App.e_hour_lt_6 App.e_high_velocity
       App.e_new_recipient Demo.r_amount_gt_50000
       Demo.r_amount_gt_10000 Demo.r_hour_lt_6 Demo.r_hour_gt_22
       Demo.r_new_recipient Demo.r_high_velocity].
  rewrite !get_Dict. unfold velocity_printable_in, velocity_printable.
  destruct (d !! "amount") as [[]|], (d !! "hour") as [[]|],
    (d !! "txns_last_1h") as [[count| | | |]|];
    cbn [bind py_gt py_lt py_str is_ok andb];
    try reflexivity;
    repeat (case_match; cbn [bind is_ok andb orb negb]);
    first [reflexivity | discriminate].
Qed.

Lemma classify_monotone (s s' : Z) :
  s <= s' → tier_rank (App.classify s).1 <= tier_rank (Demo.classify s').1.
Proof.
  intros H. unfold App.classify, Demo.classify.
  destruct (Z.leb_spec 70 s), (Z.leb_spec 40 s), (Z.leb_spec 70 s'),
    (Z.leb_spec 40 s'); simpl; lia.
Qed.

(** X7. Wherever [app.py]'s fallback engine scores, the demo engine
    scores too; the demo engine scores and [app.py] raises exactly
    where the velocity count is an [int] above 5 too long to print; and
    where both score, the demo engine's score and tier are never below
    those of [app.py]. *)
Theorem demo_never_below_app (float_repr : float → string) (t : pyobj) :
  is_ok (App.calculate_final_score float_repr t)
  = is_ok (Demo.calculate_final_score t) && velocity_printable_in t
  ∧ ∀ ra rd,
      App.calculate_final_score float_repr t = Ok ra →
      Demo.calculate_final_score t = Ok rd →
      App.risk_score ra <= Demo.risk_score rd
      ∧ tier_rank (App.risk_level ra) <= tier_rank (Demo.risk_level rd).
Proof.
  split; [apply app_demo_failures|]. intros ra rd Ha Hd.
  apply app_calculate_Ok in Ha as (rawa & ? & Hrawa & Hsa & Hla & _).
  apply demo_calculate_Ok in Hd as (rawd & ? & Hrawd & Hsd & Hld & _).
  rewrite raw_score_as_table in Hrawa.
  apply apply_rules_Ok in Hrawa as [-> _]. apply apply_rules_Ok in Hrawd as [-> _].
  pose proof (app_raw_le_demo_raw float_repr t) as Hle.
  split; [lia|].
  replace (App.risk_level ra) with (App.classify (App.risk_score ra)).1
    by (by rewrite Hsa, <- Hla).
  replace (Demo.risk_level rd) with (Demo.classify (Demo.risk_score rd)).1
    by (by rewrite Hsd, <- Hld).
  apply classify_monotone. lia.
Qed.

(** On the velocity attack (8 transactions in the hour) both engines
    score, [app.py] no higher than the demo. *)
Lemma demo_never_below_app_witness :
  is_ok (App.calculate_final_score (fun _ => "") (Dict velocity_attack))
  = is_ok (Demo.calculate_final_score (Dict velocity_attack))
    && velocity_printable_in (Dict velocity_attack)
  ∧ ∃ ra rd,
    App.calculate_final_score (fun _ => "") (Dict velocity_attack) = Ok ra
    ∧ Demo.calculate_final_score (Dict velocity_attack) = Ok rd
    ∧ App.risk_score ra <= Demo.risk_score rd.
Proof.
  split; [exact (proj1 (demo_never_below_app (fun _ => "") (Dict velocity_attack)))|].
  do 2 eexists. split; [vm_compute; reflexivity|]. split; [vm_compute; reflexivity|].
  apply (proj2 (demo_never_below_app (fun _ => "") (Dict velocity_attack)));
    vm_compute; reflexivity.
Defined.

Lemma sum_points_filter_le (f : rule → bool) rs :
  Forall (fun r => points r <= 40) rs →
  sum_points (List.filter f rs) <= 40 * Z.of_nat (length (List.filter f rs)).
Proof.
  induction 1 as [|r rs Hr _ IH]; simpl; [lia |].
  destruct (f r); [rewrite sum_points_cons; simpl length|]; lia.
Qed.

Lemma app_points_le_40 float_repr t :
  Forall (fun r => points r <= 40) (App.declared_rules float_repr t).
Proof. repeat constructor; simpl; lia. Qed.

Lemma demo_points_le_40 : Forall (fun r => points r <= 40) Demo.rules.
Proof. repeat constructor; simpl; lia. Qed.

Lemma train_points_le_40 :
  Forall (fun r => points r <= 40) (Train.rules Train.init).
Proof. repeat constructor; simpl; lia. Qed.

(** X8. No single evaluator can put a transaction in the HIGH tier: in
    each engine a HIGH result means that at least two rules triggered,
    and a result with no triggered rule has score 0 and tier LOW. *)
Theorem high_needs_two_rules (float_repr : float → string) (t : pyobj) :
  (∀ r, App.calculate_final_score float_repr t = Ok r →
     let n := length (List.filter (triggered t) (App.declared_rules float_repr t)) in
     (App.risk_level r = HIGH → (2 <= n)%nat)
     ∧ (n = 0%nat → App.risk_score r = 0 ∧ App.risk_level r = LOW))
  ∧ (∀ r, Demo.calculate_final_score t = Ok r →
     let n := length (List.filter (triggered t) Demo.rules) in
     (Demo.risk_level r = HIGH → (2 <= n)%nat)
     ∧ (n = 0%nat → Demo.risk_score r = 0 ∧ Demo.risk_level r = LOW))
  ∧ (∀ r, Train.predict Train.init t = Ok r →
     let n := length (List.filter (triggered t) (Train.rules Train.init)) in
     (Train.risk_level r = HIGH → (2 <= n)%nat)
     ∧ (n = 0%nat → Train.risk_score r = 0 ∧ Train.risk_level r = LOW)).
Proof.
  split; [|split]; intros r H n; subst n.
  - apply app_calculate_Ok in H as (raw & ? & Hraw & Hs & Hl & _).
    rewrite raw_score_as_table in Hraw. apply apply_rules_Ok in Hraw as [-> _].
    pose proof (sum_points_filter_le (triggered t) _ (app_points_le_40 float_repr t)) as Hle.
    revert Hl. rewrite Hs. unfold App.classify.
    destruct (List.filter (triggered t) _) as [|r1 [|r2 l]] eqn:Hf;
      simpl length in *; simpl sum_points in *;
      repeat case_match; intros [= -> _]; split; try done; try lia;
      intros _; apply Z.leb_gt in H; lia || (split; [lia|done]).
  - apply demo_calculate_Ok in H as (raw & ? & Hraw & Hs & Hl & _).
    apply apply_rules_Ok in Hraw as [-> _].
    pose proof (sum_points_filter_le (triggered t) _ demo_points_le_40) as Hle.
    revert Hl. rewrite Hs. unfold Demo.classify.
    destruct (List.filter (triggered t) _) as [|r1 [|r2 l]] eqn:Hf;
      simpl length in *; simpl sum_points in *;
      repeat case_match; intros [= -> _]; split; try done; try lia;
      intros _; apply Z.leb_gt in H; lia || (split; [lia|done]).
  - apply train_predict_Ok in H as (raw & ? & Hraw & Hs & Hl & _).
    apply apply_rules_Ok in Hraw as [-> _].
    pose proof (sum_points_filter_le (triggered t) _ train_points_le_40) as Hle.
    revert Hl. rewrite Hs. unfold Train.classify. simpl Train.th_HIGH. simpl Train.th_MEDIUM.
    destruct (List.filter (triggered t) _) as [|r1 [|r2 l]] eqn:Hf;
      simpl length in *; simpl sum_points in *;
      repeat case_match; intros [= -> _]; split; try done; try lia;
      intros _; apply Z.leb_gt in H; lia || (split; [lia|done]).
Qed.

(** A large transfer alone reaches 40 in [app.py] (one rule, not HIGH)
    and 70 in the demo (two rules, HIGH). *)
Lemma high_needs_two_rules_witness :
  ∃ rd,
    Demo.calculate_final_score (Dict large_transfer) = Ok rd
    ∧ Demo.risk_level rd = HIGH
    ∧ (2 <= length (List.filter (triggered (Dict large_transfer)) Demo.rules))%nat.
Proof.
  destruct (high_needs_two_rules (fun _ => "") (Dict large_transfer))
    as (_ & Hd & _).
  set (rd := {| Demo.risk_score := 70;
                Demo.risk_level := HIGH;
                Demo.suggested_action := "BLOCK - Requires additional verification";
                Demo.explanations := ["Amount > ₹50,000"; "Amount > ₹10,000"] |}).
  assert (Hr : Demo.calculate_final_score (Dict large_transfer) = Ok rd)
    by (vm_compute; reflexivity).
  exists rd. split; [exact Hr|]. split; [reflexivity|].
  exact (proj1 (Hd rd Hr) eq_refl).
Defined.

(** ** The pages of app.py *)

Lemma banners_agree (score : Z) :
  Ui.score_interpretation score = Ui.show_result_banner score
  ∧ Ui.show_result_banner score = (App.classify score).1
  ∧ Ui.show_result_banner score = (Train.classify Train.init score).1.
Proof.
  unfold Ui.score_interpretation, Ui.show_result_banner, App.classify,
    Train.classify. simpl Train.th_HIGH. simpl Train.th_MEDIUM.
  destruct (Z.ltb_spec score 40), (Z.ltb_spec score 70),
    (Z.leb_spec 70 score), (Z.leb_spec 40 score); simpl; (done || lia).
Qed.

(** X9. Whether the session holds the fallback scorer or the scorer
    that [03_train_models.py] stores, the banner that
    [display_single_result] derives from the score, the banner that
    [show_result] derives from the score, and the tier in the result
    are always the same. *)
Theorem banners_match_result_tier (float_repr : float → string)
    (scorer : Startup.scorer) (t : pyobj) (a : Ui.assessment) :
  scorer = Startup.Fallback ∨ scorer = Startup.Loaded Startup.trained →
  Ui.calculate_final_score float_repr scorer t = Ok a →
  Ui.score_interpretation (Ui.shown_score a) = Ui.shown_level a
  ∧ Ui.show_result_banner (Ui.shown_score a) = Ui.shown_level a.
Proof.
  intros Hscorer H.
  destruct (banners_agree (Ui.shown_score a)) as (-> & Ha & Ht).
  assert (Ui.show_result_banner (Ui.shown_score a) = Ui.shown_level a); [|done].
  destruct Hscorer as [-> | ->]; cbn [Ui.calculate_final_score] in H;
    apply bind_Ok in H as (r & Hr & H); inversion H; subst a; clear H;
    cbn [Ui.shown_score Ui.shown_level] in *.
  - apply app_calculate_Ok in Hr as (raw & ? & _ & Hs & Hl & _).
    rewrite Ha, Hs, <- Hl. done.
  - apply train_predict_Ok in Hr as (raw & ? & _ & Hs & Hl & _).
    rewrite Ht, Hs. cbn [Startup.trained Train.model] in Hl. by rewrite <- Hl.
Qed.

Lemma banners_match_result_tier_witness :
  ∃ a,
    Ui.calculate_final_score (fun _ => "") (Startup.Loaded Startup.trained)
      (Dict micropay_scam) = Ok a
    ∧ Ui.score_interpretation (Ui.shown_score a) = Ui.shown_level a.
Proof.
  eexists. split; [vm_compute; reflexivity|].
  apply (banners_match_result_tier (fun _ => "")
           (Startup.Loaded Startup.trained) (Dict micropay_scam)).
  - right; reflexivity.
  - vm_compute; reflexivity.
Defined.

Lemma transaction_features_lookup amount recipient ttype hour txns wk new :
  let d := Ui.transaction_features amount recipient ttype hour txns wk new in
  d !! "amount" = Some (VFloat amount)
  ∧ d !! "hour" = Some (VInt hour)
  ∧ d !! "txns_last_1h" = Some (VInt txns)
  ∧ d !! "is_new_recipient" = Some (VInt (if new then 1 else 0))
  ∧ d !! "amount_log" = None.
Proof. unfold Ui.transaction_features. repeat split; by simplify_map_eq. Qed.

(** The velocity slider of the page runs from 0 to 20: whatever it
    holds can be printed. *)
Lemma slider_count_printable (n : Z) :
  0 <= n <= 20 → int_printable n = true.
Proof.
  intros H.
  assert (Hn : n = Z.of_nat (Z.to_nat n)) by lia.
  rewrite Hn. clear Hn.
  assert (Hk : (Z.to_nat n <= 20)%nat) by lia.
  revert Hk. generalize (Z.to_nat n) as k. clear n H. intros k Hk.
  do 21 (destruct k as [|k]; [vm_compute; reflexivity|]). lia.
Qed.

(** X10. The single-check page cannot make the scorer fail: for any
    widget values whose velocity count can be printed (the slider's 0
    to 20 always can), the fallback scorer and the stored scorer both
    return an assessment of the [transaction_features] it builds, and
    that assessment does not depend on how floats are printed. *)
Theorem single_check_always_scored (float_repr : float → string)
    (amount : float) (recipient transaction_type : string)
    (hour user_txns_1h : Z) (is_weekend is_new_recipient : bool)
    (scorer : Startup.scorer) :
  scorer = Startup.Fallback ∨ scorer = Startup.Loaded Startup.trained →
  int_printable user_txns_1h = true →
  ∃ a, ∀ float_repr',
    Ui.calculate_final_score float_repr' scorer
      (Dict (Ui.transaction_features amount recipient transaction_type hour
               user_txns_1h is_weekend is_new_recipient))
    = Ok a.
Proof.
  intros Hscorer Hprint.
  destruct (transaction_features_lookup amount recipient transaction_type hour
              user_txns_1h is_weekend is_new_recipient)
    as (Ha & Hh & Ht & Hn & Hl).
  destruct Hscorer as [-> | ->]; cbn [Ui.calculate_final_score].
  - unfold App.calculate_final_score, App.raw_score, App.rule_amount,
      App.rule_time, App.rule_velocity, App.rule_new_recipient.
    rewrite !get_Dict, Ha, Hh, Ht, Hn.
    cbn [bind py_gt py_lt py_str]. rewrite ?Hprint.
    destruct (PrimFloat.ltb (float_of_int 50000) amount);
      [|destruct (PrimFloat.ltb (float_of_int 10000) amount)];
      destruct (hour <? 6), (5 <? user_txns_1h), is_new_recipient;
      cbn [bind py_eq Z.eqb Pos.eqb];
      match goal with
      | |- context [App.classify ?s] => destruct (App.classify s)
      end;
      eexists; intros; reflexivity.
  - unfold Train.calculate_final_score, Train.predict, Train.raw_score.
    cbn [Startup.trained Train.model Train.init Train.rules apply_rules
         condition Train.r_amount_gt_50000 Train.r_amount_gt_10000
         Train.r_hour_lt_6 Train.r_hour_gt_22 Train.r_amount_log_gt_12].
    unfold Train._check_amount_gt_50000, Train._check_amount_gt_10000,
      Train._check_hour_lt_6, Train._check_hour_gt_22,
      Train._check_amount_log_gt_12.
    rewrite !get_Dict, Ha, Hh, Hl.
    cbn [bind py_gt py_lt].
    destruct (PrimFloat.ltb (float_of_int 50000) amount),
      (PrimFloat.ltb (float_of_int 10000) amount),
      (hour <? 6), (22 <? hour);
      cbn [bind py_gt Z.ltb Z.compare points description
           Train.r_amount_gt_50000 Train.r_amount_gt_10000
           Train.r_hour_lt_6 Train.r_hour_gt_22 Train.r_amount_log_gt_12];
      match goal with
      | |- context [Train.classify ?m ?s] => destruct (Train.classify m s)
      end;
      eexists; intros; reflexivity.
Qed.

(** The page's defaults, with the velocity slider at its maximum. *)
Lemma single_check_always_scored_witness :
  int_printable 20 = true
  ∧ ∃ a,
    Ui.calculate_final_score (fun _ => "") Startup.Fallback
      (Dict (Ui.transaction_features 5000%float "UPI1234567890@oksbi"
               "P2P (Person to Person)" 14 20 false false))
    = Ok a.
Proof.
  assert (Hprint : int_printable 20 = true) by (apply slider_count_printable; lia).
  split; [exact Hprint|].
  destruct (single_check_always_scored (fun _ => "") 5000%float
              "UPI1234567890@oksbi" "P2P (Person to Person)" 14 20 false false
              Startup.Fallback (or_introl eq_refl) Hprint) as [a Ha].
  exists a. apply Ha.
Defined.

(** ** Uploads read without pandas *)

Lemma dict_zip_fold_strings kvs : ∀ m : gmap string value,
  string_valued m →
  string_valued (fold_left (fun m kv => <[kv.1 := VStr kv.2]> m) kvs m).
Proof.
  induction kvs as [|[k s] kvs IH]; intros m Hm; [done|].
  simpl. apply IH. intros k' v. destruct (decide (k = k')) as [<-|Hne].
  - rewrite lookup_insert_eq. intros [= <-]. eauto.
  - rewrite lookup_insert_ne by done. apply Hm.
Qed.

Lemma dict_zip_fold_dom (kvs : list (string * string)) : ∀ (m : gmap string value) k,
  is_Some (fold_left (fun m kv => <[kv.1 := VStr kv.2]> m) kvs m !! k)
  ↔ k ∈ kvs.*1 ∨ is_Some (m !! k).
Proof.
  induction kvs as [|[k0 s] kvs IH]; intros m k; simpl.
  - rewrite elem_of_nil. tauto.
  - rewrite IH, elem_of_cons. destruct (decide (k0 = k)) as [<-|Hne].
    + rewrite lookup_insert_eq. split; [auto | intros _; right; eauto].
    + rewrite lookup_insert_ne by done. split; [tauto|].
      intros [[->|?]|?]; [done | auto | auto].
Qed.

Lemma dict_zip_strings headers values :
  string_valued (Upload.dict_zip headers values).
Proof. apply dict_zip_fold_strings. intros k v. by rewrite lookup_empty. Qed.

Lemma dict_zip_dom headers values k :
  length values = length headers →
  is_Some (Upload.dict_zip headers values !! k) ↔ k ∈ headers.
Proof.
  intros Hlen. unfold Upload.dict_zip. rewrite dict_zip_fold_dom.
  rewrite fst_zip by lia. rewrite lookup_empty. split; [|auto].
  intros [?|[? [=]]]; done.
Qed.

Lemma omap_length_le {A B} (f : A → option B) (l : list A) :
  (length (omap f l) <= length l)%nat.
Proof.
  induction l as [|x l IH]; csimpl; [lia|]. destruct (f x); simpl; lia.
Qed.

(** Each record read from the upload has exactly the header's columns,
    all of them strings. *)
Lemma parse_lines_rows first_line other_lines d :
  d ∈ Upload.parse_lines first_line other_lines →
  string_valued d
  ∧ ∀ k, is_Some (d !! k) ↔ k ∈ Upload.split_on Upload.comma first_line.
Proof.
  unfold Upload.parse_lines. rewrite list_elem_of_omap.
  intros (line & _ & Hline). case_decide as Hlen; [|discriminate].
  inversion Hline; subst. split; [apply dict_zip_strings|].
  intros k. by apply dict_zip_dom.
Qed.

(** The fallback scorer on a record of strings: it raises as soon as
    one of the compared fields is present, and scores 0 otherwise. *)
Lemma app_on_strings float_repr d :
  string_valued d →
  (is_Some (d !! "amount") ∨ is_Some (d !! "hour") ∨ is_Some (d !! "txns_last_1h") →
   App.calculate_final_score float_repr (Dict d) = Raise TypeError)
  ∧ (∀ r, App.calculate_final_score float_repr (Dict d) = Ok r →
     App.risk_score r = 0 ∧ App.risk_level r = LOW ∧ App.explanations r = []).
Proof.
  intros Hd.
  unfold App.calculate_final_score, App.raw_score, App.rule_amount,
    App.rule_time, App.rule_velocity, App.rule_new_recipient.
  rewrite !get_Dict.
  destruct (d !! "amount") as [va|] eqn:Ea;
    [destruct (Hd _ _ Ea) as [sa ->]; cbn [bind py_gt]; split;
       [done | discriminate]|].
  destruct (d !! "hour") as [vh|] eqn:Eh;
    [destruct (Hd _ _ Eh) as [sh ->]; cbn; split;
       [done | discriminate]|].
  destruct (d !! "txns_last_1h") as [vt|] eqn:Et;
    [destruct (Hd _ _ Et) as [st ->]; cbn; split;
       [done | discriminate]|].
  destruct (d !! "is_new_recipient") as [vn|] eqn:En;
    [destruct (Hd _ _ En) as [sn ->]|]; cbn;
    (split; [intros [[? [=]]|[[? [=]]|[? [=]]]] | by intros r [= <-]]).
Qed.

(** A record that has none of the compared fields is scored. *)
Lemma app_without_compared_fields float_repr (d : gmap string value) :
  d !! "amount" = None → d !! "hour" = None → d !! "txns_last_1h" = None →
  is_ok (App.calculate_final_score float_repr (Dict d)) = true.
Proof.
  intros Ea Eh Et.
  unfold App.calculate_final_score, App.raw_score, App.rule_amount,
    App.rule_time, App.rule_velocity, App.rule_new_recipient.
  rewrite !get_Dict, Ea, Eh, Et. cbn.
  by destruct (py_eq _ 1).
Qed.

Lemma app_batch_returns float_repr ts :
  Forall (fun t => is_ok (App.calculate_final_score float_repr t) = true) ts →
  ∃ rows, App.analyze_batch float_repr ts = Ok rows.
Proof.
  intros Hts.
  assert (Hok : is_ok (App.analyze_batch float_repr ts) = true).
  { unfold App.analyze_batch. rewrite app_batch_is_ok.
    induction Hts as [|t ts Ht _ IH]; simpl; [done|]. by rewrite Ht. }
  destruct (App.analyze_batch float_repr ts) as [rows|e]; [eauto | discriminate].
Qed.

(** X11. Without pandas an uploaded file can never be rated above LOW
    by the fallback scorer.  At most 20 records are read; each has
    exactly the header's columns and holds strings only.  So when the
    header names [amount], [hour] or [txns_last_1h] and a record is
    read, the batch raises [TypeError]; when it names none of them the
    batch returns one row per record; and every row that is returned
    scores 0, tier LOW, with no risk factor. *)
Theorem upload_without_pandas (float_repr : float → string)
    (first_line : string) (other_lines : list string) :
  let headers := Upload.split_on Upload.comma first_line in
  let records := Upload.parse_lines first_line other_lines in
  let unrated row :=
    App.row_risk_score row = 0 ∧ App.row_risk_level row = LOW
    ∧ App.top_reason row = "No specific risk factors" in
  (length records <= 20)%nat
  ∧ Forall (fun d => string_valued d ∧ ∀ k, is_Some (d !! k) ↔ k ∈ headers)
      records
  ∧ (records ≠ [] →
     "amount" ∈ headers ∨ "hour" ∈ headers ∨ "txns_last_1h" ∈ headers →
     App.analyze_batch float_repr (Dict <$> records) = Raise TypeError)
  ∧ ("amount" ∉ headers → "hour" ∉ headers → "txns_last_1h" ∉ headers →
     ∃ rows, App.analyze_batch float_repr (Dict <$> records) = Ok rows
             ∧ length rows = length records
             ∧ Forall unrated rows)
  ∧ (∀ rows, App.analyze_batch float_repr (Dict <$> records) = Ok rows →
     Forall unrated rows).
Proof.
  intros headers records unrated.
  assert (Hrecords : Forall (fun d => string_valued d
                      ∧ ∀ k, is_Some (d !! k) ↔ k ∈ headers) records).
  { apply Forall_forall. intros d Hin.
    exact (parse_lines_rows first_line other_lines d Hin). }
  assert (Hunrated : ∀ rows,
            App.analyze_batch float_repr (Dict <$> records) = Ok rows →
            Forall unrated rows).
  { intros rows H. apply Forall_lookup_2. intros i row Hrow.
    assert (Hlen : length rows = length (Dict <$> records))
      by (by apply (app_batch_length float_repr _ 0%nat)).
    assert (is_Some ((Dict <$> records) !! i)) as [t Ht].
    { apply lookup_lt_is_Some. rewrite <- Hlen. by eapply lookup_lt_Some. }
    destruct (app_batch_lookup _ _ _ _ _ _ H Ht) as (res & ? & ? & Hr & _ & _ & Hrow').
    rewrite Hrow in Hrow'. inversion Hrow'; subst row; clear Hrow'.
    rewrite list_lookup_fmap in Ht.
    destruct (records !! i) as [d|] eqn:Hd; [|discriminate]. inversion Ht; subst t.
    assert (Hin : d ∈ Upload.parse_lines first_line other_lines)
      by (by eapply list_elem_of_lookup_2).
    destruct (parse_lines_rows _ _ _ Hin) as [Hstr _].
    destruct (app_on_strings float_repr d Hstr) as [_ Hzero].
    destruct (Hzero _ Hr) as (Hs & Hl & He).
    unfold unrated. cbn [App.row_risk_score App.row_risk_level App.top_reason].
    by rewrite Hs, Hl, He. }
  split; [|split; [exact Hrecords|split; [|split; [|exact Hunrated]]]].
  - unfold records, Upload.parse_lines.
    etransitivity; [apply omap_length_le|]. rewrite length_take. lia.
  - intros Hne Hcol. destruct records as [|d rest] eqn:Hrec; [done|].
    assert (Hin : d ∈ Upload.parse_lines first_line other_lines)
      by (fold records; rewrite Hrec; left).
    destruct (parse_lines_rows _ _ _ Hin) as [Hstr Hdom].
    destruct (app_on_strings float_repr d Hstr) as [Hraise _].
    unfold App.analyze_batch. cbn [fmap list_fmap App.analyze_batch_from].
    rewrite Hraise; [done|]. rewrite !Hdom. exact Hcol.
  - intros Ha Hh Ht.
    destruct (app_batch_returns float_repr (Dict <$> records)) as [rows Hrows].
    { apply Forall_fmap. eapply Forall_impl; [exact Hrecords|].
      intros d [_ Hdom]. cbn.
      apply app_without_compared_fields; apply eq_None_not_Some;
        by rewrite Hdom. }
    exists rows. split; [exact Hrows|]. split; [|by apply Hunrated].
    rewrite (app_batch_length float_repr _ 0%nat _ Hrows). apply length_fmap.
Qed.

(** A file without any of the compared columns: two records are read,
    the short line is dropped, and both rows come back unrated. *)
Lemma upload_without_pandas_witness :
  length (Upload.parse_lines "transaction_id,user_id" ["T1,alice"; "T2,bob"; "T3"])
  = 2%nat
  ∧ ∃ rows,
      App.analyze_batch (fun _ => "")
        (Dict <$> Upload.parse_lines "transaction_id,user_id"
                    ["T1,alice"; "T2,bob"; "T3"])
      = Ok rows
      ∧ length rows
        = length (Upload.parse_lines "transaction_id,user_id"
                    ["T1,alice"; "T2,bob"; "T3"])
      ∧ Forall (fun row => App.row_risk_score row = 0
                           ∧ App.row_risk_level row = LOW
                           ∧ App.top_reason row = "No specific risk factors") rows.
Proof.
  split; [vm_compute; reflexivity|].
  apply (proj1 (proj2 (proj2 (proj2
           (upload_without_pandas (fun _ => "") "transaction_id,user_id"
              ["T1,alice"; "T2,bob"; "T3"])))));
    compute_done.
Defined.

(** ** Rows loaded by the demo script *)

Lemma convert_row_lookup fparse (row : gmap string DemoData.cell) k :
  DemoData.convert_row fparse row !! k
  = DemoData.convert_cell fparse k <$> row !! k.
Proof.
  unfold DemoData.convert_row. rewrite map_lookup_imap.
  by destruct (row !! k).
Qed.

Lemma convert_cell_other fparse k c :
  k ∉ ["amount"; "hour"; "is_fraud"] →
  DemoData.convert_cell fparse k c = DemoData.cell_value c.
Proof. intros Hk. unfold DemoData.convert_cell. by rewrite bool_decide_eq_false_2. Qed.

Lemma not_a_float_column k :
  k ≠ "amount" → k ≠ "hour" → k ≠ "is_fraud" →
  k ∉ ["amount"; "hour"; "is_fraud"].
Proof. intros. rewrite !not_elem_of_cons. repeat split; [done..|apply not_elem_of_nil]. Qed.

Lemma cell_value_not_number c : is_number (DemoData.cell_value c) = false.
Proof. by destruct c. Qed.

(** A velocity field that is not a number stops the demo engine,
    whatever the other fields hold. *)
Lemma demo_velocity_not_number (d : gmap string value) v :
  d !! "txns_last_1h" = Some v → is_number v = false →
  Demo.calculate_final_score (Dict d) = Raise TypeError.
Proof.
  intros Hv Hn.
  unfold Demo.calculate_final_score, Demo.raw_score, Demo.rules,
    Demo.r_amount_gt_50000, Demo.r_amount_gt_10000, Demo.r_hour_lt_6,
    Demo.r_hour_gt_22, Demo.r_new_recipient, Demo.r_high_velocity.
  cbn [apply_rules condition points description].
  rewrite !get_Dict, Hv.
  destruct (d !! "amount") as [[]|], (d !! "hour") as [[]|], v;
    try discriminate Hn; cbn [bind py_gt py_lt];
    repeat (match goal with
            | |- context [if ?b then _ else _] => destruct b
            end; cbn [bind py_gt py_lt]);
    reflexivity.
Qed.

(** With neither hour nor velocity field, and a recipient flag that is
    not the number 1, only the amount rules can fire: the score is 0,
    30 or 70, never in the MEDIUM band. *)
Lemma demo_amount_only (d : gmap string value) r :
  d !! "hour" = None → d !! "txns_last_1h" = None →
  py_eq (default (VInt 0) (d !! "is_new_recipient")) 1 = false →
  Demo.calculate_final_score (Dict d) = Ok r →
  (Demo.risk_score r = 0 ∧ Demo.risk_level r = LOW)
  ∨ (Demo.risk_score r = 30 ∧ Demo.risk_level r = LOW)
  ∨ (Demo.risk_score r = 70 ∧ Demo.risk_level r = HIGH).
Proof.
  intros Hh Ht Hn.
  unfold Demo.calculate_final_score, Demo.raw_score, Demo.rules,
    Demo.r_amount_gt_50000, Demo.r_amount_gt_10000, Demo.r_hour_lt_6,
    Demo.r_hour_gt_22, Demo.r_new_recipient, Demo.r_high_velocity.
  cbn [apply_rules condition points description].
  rewrite !get_Dict, Hh, Ht. cbn [bind].
  change (match d !! "is_new_recipient" with Some v => v | None => VInt 0 end)
    with (default (VInt 0) (d !! "is_new_recipient")).
  rewrite Hn.
  destruct (d !! "amount") as [v|]; [|intros [= <-]; auto].
  destruct (py_gt v 50000) as [[|]|] eqn:H50; cbn [bind]; [| |discriminate].
  - rewrite (py_gt_50000_gt_10000 v H50). intros [= <-]. auto.
  - destruct (py_gt v 10000) as [[|]|]; intros [= <-]; auto.
Qed.

(** X12. On a row that [load_sample_data] converted, the demo engine's
    new-recipient rule never triggers; a [txns_last_1h] column makes it
    raise [TypeError]; and when the file has neither an [hour] nor a
    [txns_last_1h] column, as the file written by [01_generate_data.py],
    every score is 0 or 30 (LOW) or 70 (HIGH): MEDIUM never occurs. *)
Theorem demo_on_loaded_rows (float_of_string : string → option float)
    (row : gmap string DemoData.cell) :
  let d := DemoData.convert_row float_of_string row in
  triggered (Dict d) Demo.r_new_recipient = false
  ∧ (is_Some (row !! "txns_last_1h") →
     Demo.calculate_final_score (Dict d) = Raise TypeError)
  ∧ (row !! "hour" = None → row !! "txns_last_1h" = None →
     ∀ r, Demo.calculate_final_score (Dict d) = Ok r →
       (Demo.risk_score r = 0 ∧ Demo.risk_level r = LOW)
       ∨ (Demo.risk_score r = 30 ∧ Demo.risk_level r = LOW)
       ∨ (Demo.risk_score r = 70 ∧ Demo.risk_level r = HIGH)).
Proof.
  intros d.
  assert (Hnew : py_eq (default (VInt 0) (d !! "is_new_recipient")) 1 = false).
  { unfold d. rewrite convert_row_lookup.
    destruct (row !! "is_new_recipient") as [c|]; [|reflexivity].
    cbn [fmap option_fmap option_map default].
    rewrite convert_cell_other by (by apply not_a_float_column).
    by destruct c. }
  split; [|split].
  - unfold triggered. cbn [condition Demo.r_new_recipient].
    rewrite get_Dict.
    change (match d !! "is_new_recipient" with Some v => v | None => VInt 0 end)
      with (default (VInt 0) (d !! "is_new_recipient")).
    cbn [bind]. by rewrite Hnew.
  - intros [c Hc].
    apply (demo_velocity_not_number d (DemoData.cell_value c)).
    + unfold d. rewrite convert_row_lookup, Hc.
      cbn [fmap option_fmap option_map].
      by rewrite convert_cell_other by (by apply not_a_float_column).
    + apply cell_value_not_number.
  - intros Hh Ht r Hr. apply (demo_amount_only d r); try done.
    + unfold d. by rewrite convert_row_lookup, Hh.
    + unfold d. by rewrite convert_row_lookup, Ht.
Qed.

(** A generated row (amount, no hour, no velocity) of 60,000: HIGH at
    70. *)
Lemma demo_on_loaded_rows_witness :
  ∃ r,
    Demo.calculate_final_score
      (Dict (DemoData.convert_row (fun _ => Some 60000%float)
               {["amount" := DemoData.Text "60000.0"]})) = Ok r
    ∧ Demo.risk_score r = 70 ∧ Demo.risk_level r = HIGH.
Proof.
  set (row := ({["amount" := DemoData.Text "60000.0"]} : gmap string DemoData.cell)).
  destruct (demo_on_loaded_rows (fun _ => Some 60000%float) row) as (_ & _ & H).
  assert (Hh : row !! "hour" = None) by reflexivity.
  assert (Ht : row !! "txns_last_1h" = None) by reflexivity.
  eexists. split; [vm_compute; reflexivity|].
  destruct (H Hh Ht _ ltac:(vm_compute; reflexivity)) as [[E _]|[[E _]|E]];
    [discriminate E | discriminate E | exact E].
Defined.

(** ** Suspicious hours *)

(** X13. For a whole hour of the day, the list
    [time_suspicious_hours] of [config.py] holds exactly the hours at
    which a time rule of the demo engine and of the trained detector
    triggers; the fallback of [app.py], which has no rule for late
    evening, misses hour 23. *)
Theorem suspicious_hours_match_rules (d : gmap string value) (h : Z) :
  d !! "hour" = Some (VInt h) →
  0 <= h <= 23 →
  (h ∈ ConfigRules.time_suspicious_hours
   ↔ triggered (Dict d) Demo.r_hour_lt_6 = true
     ∨ triggered (Dict d) Demo.r_hour_gt_22 = true)
  ∧ (h ∈ ConfigRules.time_suspicious_hours
     ↔ triggered (Dict d) Train.r_hour_lt_6 = true
       ∨ triggered (Dict d) Train.r_hour_gt_22 = true)
  ∧ (triggered (Dict d) App.e_hour_lt_6 = true
     ↔ h ∈ ConfigRules.time_suspicious_hours ∧ h ≠ 23).
Proof.
  intros Hd Hh. unfold triggered, ConfigRules.time_suspicious_hours.
  cbn [condition Demo.r_hour_lt_6 Demo.r_hour_gt_22 Train.r_hour_lt_6
       Train.r_hour_gt_22 App.e_hour_lt_6].
  unfold Train._check_hour_lt_6, Train._check_hour_gt_22.
  rewrite !get_Dict, Hd. cbn [bind py_lt py_gt].
  rewrite !elem_of_cons, elem_of_nil.
  destruct (Z.ltb_spec h 6), (Z.ltb_spec 22 h); repeat split; intros;
    try discriminate; try lia; try (by left); try (by right);
    repeat match goal with H : _ ∨ _ |- _ => destruct H end;
    try discriminate; lia.
Qed.

Lemma suspicious_hours_match_rules_witness :
  23 ∈ ConfigRules.time_suspicious_hours
  ∧ triggered (Dict (<["hour" := VInt 23]> ∅)) Demo.r_hour_gt_22 = true
  ∧ triggered (Dict (<["hour" := VInt 23]> ∅)) App.e_hour_lt_6 = false.
Proof.
  assert (Hd : (<["hour" := VInt 23]> ∅ : gmap string value) !! "hour"
               = Some (VInt 23)) by reflexivity.
  assert (Hh : 0 <= 23 <= 23) by lia.
  destruct (suspicious_hours_match_rules _ 23 Hd Hh) as (_ & _ & Ha).
  split; [|split; [reflexivity|]].
  - unfold ConfigRules.time_suspicious_hours. rewrite !elem_of_cons. tauto.
  - destruct (triggered (Dict (<["hour" := VInt 23]> ∅)) App.e_hour_lt_6) eqn:E;
      [|reflexivity].
    destruct (proj1 Ha eq_refl) as [_ Hne]. by destruct Hne.
Defined.

(** ** Feature records *)

Section FeatureFacts.
Variable float_of_string : string → option float.
Variable int_of_string : string → option Z.
Variable fromisoformat : string → option (nat * nat).
Variable randint_hour randint_day : nat → nat.
Variable log1p : float → option float.
Variable py_hash : DemoData.cell → Z.

Local Abbreviation features_of :=
  (Features.features_of float_of_string int_of_string fromisoformat
     randint_hour randint_day log1p py_hash).
Local Abbreviation create_from :=
  (Features.create_from float_of_string int_of_string fromisoformat
     randint_hour randint_day log1p py_hash).

(** What a feature record holds, field by field. *)
Lemma features_of_fields i row feat label :
  features_of i row = Some (feat, label) →
  ∃ amount amount_log (hour day : nat),
    feat !! "amount" = Some (VFloat amount)
    ∧ feat !! "hour" = Some (VInt (Z.of_nat hour))
    ∧ feat !! "amount_log" = Some (VFloat amount_log)
    ∧ feat !! "is_night"
      = Some (Features.flag (bool_decide (Z.of_nat hour ∈ [0; 1; 2; 3; 4; 5; 23])))
    ∧ feat !! "suspicious_time" = Some (Features.flag (Z.of_nat hour <? 6))
    ∧ feat !! "high_amount"
      = Some (Features.flag (PrimFloat.ltb (float_of_int 10000) amount))
    ∧ feat !! "is_weekend"
      = Some (Features.flag (bool_decide (Z.of_nat day ∈ [5; 6])))
    ∧ ∃ user_hash, feat !! "user_hash" = Some (VInt user_hash)
                   ∧ 0 <= user_hash < 100.
Proof.
  unfold Features.features_of.
  destruct (Features.amount_of _ row) as [amount|]; [|discriminate].
  destruct (Features.is_fraud_of _ row) as [is_fraud|]; [|discriminate].
  destruct (Features.hour_and_day _ _ _ i row) as [hour day].
  destruct (log1p amount) as [amount_log|]; [|discriminate].
  intros [= <- <-]. exists amount, amount_log, hour, day.
  repeat split; try by simplify_map_eq.
  eexists. split; [by simplify_map_eq|]. by apply Z.mod_pos_bound.
Qed.

(** A row is kept exactly when its amount and its label can be read
    and [log1p] accepts the amount. *)
Lemma features_of_is_Some i row :
  is_Some (features_of i row)
  ↔ ∃ amount label amount_log,
      Features.amount_of float_of_string row = Some amount
      ∧ Features.is_fraud_of int_of_string row = Some label
      ∧ log1p amount = Some amount_log.
Proof.
  unfold Features.features_of.
  destruct (Features.amount_of _ row) as [amount|];
    [|split; [intros [? [=]] | intros (? & ? & ? & [=] & _)]].
  destruct (Features.is_fraud_of _ row) as [label|];
    [|split; [intros [? [=]] | intros (? & ? & ? & _ & [=] & _)]].
  destruct (Features.hour_and_day _ _ _ i row) as [hour day].
  destruct (log1p amount) as [amount_log|] eqn:Hlog.
  - split; [intros _; by exists amount, label, amount_log | eauto].
  - split; [intros [? [=]] | intros (? & ? & ? & [= <-] & _ & Hl)].
    rewrite Hlog in Hl. discriminate Hl.
Qed.

(** The loop keeps the two lists in step, and every pair it appends is
    the feature record and label of one input row. *)
Lemma create_from_aligned data : ∀ (before : list (gmap string DemoData.cell))
    features labels fs ls,
  create_from (length before) data features labels = (fs, ls) →
  length features = length labels →
  (∀ k f l, features !! k = Some f → labels !! k = Some l →
     ∃ i row, (before ++ data) !! i = Some row ∧ features_of i row = Some (f, l)) →
  length fs = length ls
  ∧ (length fs <= length features + length data)%nat
  ∧ ∀ k f l, fs !! k = Some f → ls !! k = Some l →
      ∃ i row, (before ++ data) !! i = Some row ∧ features_of i row = Some (f, l).
Proof.
  induction data as [|row data IH]; intros before features labels fs ls H Hlen Hinv.
  - simpl in H. inversion H; subst. split; [done|]. split; [simpl; lia | done].
  - simpl in H.
    replace (before ++ row :: data) with ((before ++ [row]) ++ data) in *
      by (by rewrite <- app_assoc).
    replace (S (length before)) with (length (before ++ [row])) in H
      by (rewrite length_app; simpl; lia).
    destruct (features_of (length before) row) as [[feat is_fraud]|] eqn:Hrow.
    + apply IH in H as (H1 & H2 & H3).
      * split; [done|]. split; [|done]. rewrite length_app in H2. simpl in *. lia.
      * rewrite !length_app. simpl. lia.
      * intros k f l Hf Hl.
        destruct (decide (k < length features)%nat) as [Hk|Hk].
        -- rewrite lookup_app_l in Hf by done.
           rewrite lookup_app_l in Hl by lia. by apply (Hinv k).
        -- assert (k = length features) as ->.
           { apply lookup_lt_Some in Hf. rewrite length_app in Hf. simpl in Hf. lia. }
           rewrite list_lookup_middle in Hf by done.
           rewrite list_lookup_middle in Hl by done.
           inversion Hf; inversion Hl; subst.
           exists (length before), row. split; [|done].
           rewrite <- app_assoc. cbn [app]. by rewrite list_lookup_middle.
    + apply IH in H as (H1 & H2 & H3); [|done|done].
      split; [done|]. split; [simpl; lia | done].
Qed.

(** X14. [create_simple_features_from_csv] never lets the features and
    the labels drift apart: the two lists have the same length, at most
    one entry per input row, and the label at each position is the one
    of the row its feature record was built from. *)
Theorem features_and_labels_aligned (data : list (gmap string DemoData.cell)) :
  let '(features, labels) :=
    Features.create_simple_features float_of_string int_of_string
      fromisoformat randint_hour randint_day log1p py_hash data in
  length features = length labels
  ∧ (length features <= length data)%nat
  ∧ ∀ k feat label,
      features !! k = Some feat → labels !! k = Some label →
      ∃ i row, data !! i = Some row ∧ features_of i row = Some (feat, label).
Proof.
  unfold Features.create_simple_features.
  destruct data as [|row data]; [by repeat split|].
  destruct (create_from 0 (row :: data) [] []) as [fs ls] eqn:H.
  apply (create_from_aligned (row :: data) []) in H; [|done|done].
  destruct H as (H1 & H2 & H3). split; [done|]. split; [|done]. simpl in *. lia.
Qed.

(** X15. Every feature record the script produces is accepted by the
    trained detector, and its flags say what the detector's rules will
    find: [suspicious_time] is 1 exactly when the late-night rule
    triggers, [high_amount] is 1 exactly when the amount > 10,000 rule
    triggers. *)
Theorem features_fit_the_detector (i : nat) (row : gmap string DemoData.cell)
    (feat : gmap string value) (label : Z) :
  features_of i row = Some (feat, label) →
  (∃ r, Train.predict Train.init (Dict feat) = Ok r)
  ∧ (feat !! "suspicious_time" = Some (VInt 1)
     ↔ triggered (Dict feat) Train.r_hour_lt_6 = true)
  ∧ (feat !! "high_amount" = Some (VInt 1)
     ↔ triggered (Dict feat) Train.r_amount_gt_10000 = true).
Proof.
  intros H.
  destruct (features_of_fields _ _ _ _ H)
    as (amount & amount_log & hour & day & Ha & Hh & Hl & _ & Hs & Hg & _).
  split; [|split].
  - unfold Train.predict, Train.raw_score.
    cbn [Train.init Train.rules apply_rules condition
         Train.r_amount_gt_50000 Train.r_amount_gt_10000
         Train.r_hour_lt_6 Train.r_hour_gt_22 Train.r_amount_log_gt_12].
    unfold Train._check_amount_gt_50000, Train._check_amount_gt_10000,
      Train._check_hour_lt_6, Train._check_hour_gt_22,
      Train._check_amount_log_gt_12.
    rewrite !get_Dict, Ha, Hh, Hl. cbn [bind py_gt py_lt].
    repeat (match goal with
            | |- context [if ?b then _ else _] => destruct b
            end; cbn [bind py_gt py_lt]);
      match goal with
      | |- context [Train.classify ?m ?s] => destruct (Train.classify m s)
      end; eauto.
  - rewrite Hs. unfold triggered. cbn [condition Train.r_hour_lt_6].
    unfold Train._check_hour_lt_6. rewrite get_Dict, Hh. cbn [bind py_lt].
    unfold Features.flag. destruct (Z.of_nat hour <? 6); split; congruence.
  - rewrite Hg. unfold triggered. cbn [condition Train.r_amount_gt_10000].
    unfold Train._check_amount_gt_10000. rewrite get_Dict, Ha. cbn [bind py_gt].
    unfold Features.flag.
    destruct (PrimFloat.ltb (float_of_int 10000) amount); split; congruence.
Qed.

(** X16. Within a feature record the flags are consistent: a
    [suspicious_time] record is an [is_night] record, the only night
    hour that is not suspicious is 23, and [user_hash] lies in
    [0, 100). *)
Theorem feature_flags_consistent (i : nat) (row : gmap string DemoData.cell)
    (feat : gmap string value) (label : Z) :
  features_of i row = Some (feat, label) →
  (feat !! "suspicious_time" = Some (VInt 1) → feat !! "is_night" = Some (VInt 1))
  ∧ (feat !! "is_night" = Some (VInt 1) →
     feat !! "suspicious_time" = Some (VInt 0) →
     feat !! "hour" = Some (VInt 23))
  ∧ ∃ user_hash, feat !! "user_hash" = Some (VInt user_hash) ∧ 0 <= user_hash < 100.
Proof.
  intros H.
  destruct (features_of_fields _ _ _ _ H)
    as (amount & amount_log & hour & day & _ & Hh & _ & Hn & Hs & _ & _ & Hu).
  rewrite Hn, Hs, Hh. unfold Features.flag. split; [|split; [|exact Hu]].
  - destruct (Z.ltb_spec (Z.of_nat hour) 6); [|discriminate].
    intros _. rewrite bool_decide_eq_true_2; [done|].
    rewrite !elem_of_cons. lia.
  - case_bool_decide as Hin; [|discriminate].
    destruct (Z.ltb_spec (Z.of_nat hour) 6); [discriminate|].
    intros _ _. rewrite !elem_of_cons, elem_of_nil in Hin.
    do 2 f_equal. lia.
Qed.

End FeatureFacts.

(** Two rows, the second with an unreadable amount: one feature record
    and one label come out. *)
Lemma features_and_labels_aligned_witness :
  let data : list (gmap string DemoData.cell) :=
    [ {["amount" := DemoData.Text "20000"]}; {["amount" := DemoData.Missing]} ] in
  let out :=
    Features.create_simple_features (fun _ => Some 20000%float) (fun _ => Some 1)
      (fun _ => Some (3, 2)%nat) (fun _ => 0%nat) (fun _ => 0%nat)
      (fun f => Some f) (fun _ => 12345) data in
  length out.1 = 1%nat ∧ length out.1 = length out.2.
Proof.
  intros data out. split; [vm_compute; reflexivity|].
  pose proof (features_and_labels_aligned (fun _ => Some 20000%float)
                (fun _ => Some 1) (fun _ => Some (3, 2)%nat) (fun _ => 0%nat)
                (fun _ => 0%nat) (fun f => Some f) (fun _ => 12345) data) as H.
  fold out in H. destruct out as [fs ls]. exact (proj1 H).
Defined.

Lemma features_fit_the_detector_witness :
  ∃ feat label r,
    Features.features_of (fun _ => Some 20000%float) (fun _ => Some 1)
      (fun _ => Some (3, 2)%nat) (fun _ => 0%nat) (fun _ => 0%nat)
      (fun f => Some f) (fun _ => 12345) 0
      {["amount" := DemoData.Text "20000"]} = Some (feat, label)
    ∧ Train.predict Train.init (Dict feat) = Ok r.
Proof.
  assert (is_Some (Features.features_of (fun _ => Some 20000%float)
      (fun _ => Some 1) (fun _ => Some (3, 2)%nat) (fun _ => 0%nat)
      (fun _ => 0%nat) (fun f => Some f) (fun _ => 12345) 0
      {["amount" := DemoData.Text "20000"]})) as [[feat label] H].
  { apply features_of_is_Some. by exists 20000%float, 0, 20000%float. }
  destruct (proj1 (features_fit_the_detector _ _ _ _ _ _ _ _ _ _ _ H)) as [r Hr].
  by exists feat, label, r.
Defined.

Lemma feature_flags_consistent_witness :
  ∃ feat label user_hash,
    Features.features_of (fun _ => Some 20000%float) (fun _ => Some 1)
      (fun _ => Some (3, 2)%nat) (fun _ => 0%nat) (fun _ => 0%nat)
      (fun f => Some f) (fun _ => 12345) 0
      {["amount" := DemoData.Text "20000"]} = Some (feat, label)
    ∧ feat !! "user_hash" = Some (VInt user_hash) ∧ 0 <= user_hash < 100.
Proof.
  assert (is_Some (Features.features_of (fun _ => Some 20000%float)
      (fun _ => Some 1) (fun _ => Some (3, 2)%nat) (fun _ => 0%nat)
      (fun _ => 0%nat) (fun f => Some f) (fun _ => 12345) 0
      {["amount" := DemoData.Text "20000"]})) as [[feat label] H].
  { apply features_of_is_Some. by exists 20000%float, 0, 20000%float. }
  destruct (proj2 (proj2 (feature_flags_consistent _ _ _ _ _ _ _ _ _ _ _ H)))
    as (user_hash & Hu & Hb).
  by exists feat, label, user_hash.
Defined.

(** ** Larger amounts *)

Lemma classify_rank_monotone (s s' : Z) :
  s <= s' →
  tier_rank (App.classify s).1 <= tier_rank (App.classify s').1
  ∧ tier_rank (Demo.classify s).1 <= tier_rank (Demo.classify s').1
  ∧ tier_rank (Train.classify Train.init s).1
    <= tier_rank (Train.classify Train.init s').1.
Proof.
  intros H. unfold App.classify, Demo.classify, Train.classify.
  simpl Train.th_HIGH. simpl Train.th_MEDIUM.
  destruct (Z.leb_spec 70 s), (Z.leb_spec 40 s), (Z.leb_spec 70 s'),
    (Z.leb_spec 40 s'); simpl; lia.
Qed.

(** A rule that reads another field does not see the amount. *)
Ltac other_field :=
  unfold triggered;
  cbn [condition Demo.r_hour_lt_6 Demo.r_hour_gt_22 Demo.r_new_recipient
       Demo.r_high_velocity Train.r_hour_lt_6 Train.r_hour_gt_22
       Train.r_amount_log_gt_12 App.e_hour_lt_6 App.e_high_velocity
       App.e_new_recipient];
  unfold Train._check_hour_lt_6, Train._check_hour_gt_22,
    Train._check_amount_log_gt_12;
  rewrite !get_Dict, !lookup_insert_ne by done; reflexivity.

(** A rule on the amount, at an integer amount. *)
Ltac amount_field :=
  unfold triggered;
  cbn [condition Demo.r_amount_gt_50000 Demo.r_amount_gt_10000
       Train.r_amount_gt_50000 Train.r_amount_gt_10000
       App.e_amount_gt_50000 App.e_amount_gt_10000];
  unfold Train._check_amount_gt_50000, Train._check_amount_gt_10000;
  rewrite !get_Dict, !lookup_insert_eq; cbn [bind py_gt];
  repeat match goal with |- context [?a <? ?b] => destruct (a <? b) end;
  reflexivity.

Lemma demo_triggered_by_amount (d : gmap string value) (n : Z) :
  let t := Dict (<["amount" := VInt n]> d) in
  triggered t Demo.r_amount_gt_50000 = (50000 <? n)
  ∧ triggered t Demo.r_amount_gt_10000 = (10000 <? n)
  ∧ triggered t Demo.r_hour_lt_6 = triggered (Dict d) Demo.r_hour_lt_6
  ∧ triggered t Demo.r_hour_gt_22 = triggered (Dict d) Demo.r_hour_gt_22
  ∧ triggered t Demo.r_new_recipient = triggered (Dict d) Demo.r_new_recipient
  ∧ triggered t Demo.r_high_velocity = triggered (Dict d) Demo.r_high_velocity.
Proof.
  intros t. subst t.
  split; [amount_field|]. split; [amount_field|].
  split; [other_field|]. split; [other_field|]. split; other_field.
Qed.

Lemma train_triggered_by_amount (d : gmap string value) (n : Z) :
  let t := Dict (<["amount" := VInt n]> d) in
  triggered t Train.r_amount_gt_50000 = (50000 <? n)
  ∧ triggered t Train.r_amount_gt_10000 = (10000 <? n)
  ∧ triggered t Train.r_hour_lt_6 = triggered (Dict d) Train.r_hour_lt_6
  ∧ triggered t Train.r_hour_gt_22 = triggered (Dict d) Train.r_hour_gt_22
  ∧ triggered t Train.r_amount_log_gt_12
    = triggered (Dict d) Train.r_amount_log_gt_12.
Proof.
  intros t. subst t.
  split; [amount_field|]. split; [amount_field|].
  split; [other_field|]. split; other_field.
Qed.

Lemma app_triggered_by_amount float_repr (d : gmap string value) (n : Z) :
  let t := Dict (<["amount" := VInt n]> d) in
  triggered t App.e_amount_gt_50000 = (50000 <? n)
  ∧ triggered t App.e_amount_gt_10000 = (negb (50000 <? n) && (10000 <? n))
  ∧ triggered t App.e_hour_lt_6 = triggered (Dict d) App.e_hour_lt_6
  ∧ triggered t (App.e_high_velocity float_repr t)
    = triggered (Dict d) (App.e_high_velocity float_repr (Dict d))
  ∧ triggered t App.e_new_recipient = triggered (Dict d) App.e_new_recipient.
Proof.
  intros t. subst t.
  split; [amount_field|]. split; [amount_field|].
  split; [other_field|]. split; other_field.
Qed.

Ltac amount_cases n n' :=
  destruct (Z.ltb_spec 50000 n), (Z.ltb_spec 10000 n),
    (Z.ltb_spec 50000 n'), (Z.ltb_spec 10000 n'); try lia.

Lemma app_raw_monotone_in_amount float_repr (d : gmap string value) (n n' : Z) raw raw' l l' :
  n <= n' →
  App.raw_score float_repr (Dict (<["amount" := VInt n]> d)) = Ok (raw, l) →
  App.raw_score float_repr (Dict (<["amount" := VInt n']> d)) = Ok (raw', l') →
  raw <= raw'.
Proof.
  intros Hn H H'. rewrite raw_score_as_table in H, H'.
  apply apply_rules_Ok in H as [-> _]. apply apply_rules_Ok in H' as [-> _].
  unfold App.declared_rules. cbn [List.filter].
  destruct (app_triggered_by_amount float_repr d n) as (-> & -> & -> & -> & ->).
  destruct (app_triggered_by_amount float_repr d n') as (-> & -> & -> & -> & ->).
  destruct (triggered (Dict d) App.e_hour_lt_6),
    (triggered (Dict d) (App.e_high_velocity float_repr (Dict d))),
    (triggered (Dict d) App.e_new_recipient);
    amount_cases n n'; cbn; lia.
Qed.

Lemma rules_raw_monotone_in_amount (d : gmap string value) (n n' : Z) raw raw' l l' :
  n <= n' →
  (Demo.raw_score (Dict (<["amount" := VInt n]> d)) = Ok (raw, l) →
   Demo.raw_score (Dict (<["amount" := VInt n']> d)) = Ok (raw', l') →
   raw <= raw')
  ∧ (Train.raw_score Train.init (Dict (<["amount" := VInt n]> d)) = Ok (raw, l) →
     Train.raw_score Train.init (Dict (<["amount" := VInt n']> d)) = Ok (raw', l') →
     raw <= raw').
Proof.
  intros Hn. split; intros H H';
    apply apply_rules_Ok in H as [-> _]; apply apply_rules_Ok in H' as [-> _].
  - unfold Demo.rules. cbn [List.filter].
    destruct (demo_triggered_by_amount d n) as (-> & -> & -> & -> & -> & ->).
    destruct (demo_triggered_by_amount d n') as (-> & -> & -> & -> & -> & ->).
    destruct (triggered (Dict d) Demo.r_hour_lt_6),
      (triggered (Dict d) Demo.r_hour_gt_22),
      (triggered (Dict d) Demo.r_new_recipient),
      (triggered (Dict d) Demo.r_high_velocity);
      amount_cases n n'; cbn; lia.
  - cbn [Train.init Train.rules List.filter].
    destruct (train_triggered_by_amount d n) as (-> & -> & -> & -> & ->).
    destruct (train_triggered_by_amount d n') as (-> & -> & -> & -> & ->).
    destruct (triggered (Dict d) Train.r_hour_lt_6),
      (triggered (Dict d) Train.r_hour_gt_22),
      (triggered (Dict d) Train.r_amount_log_gt_12);
      amount_cases n n'; cbn; lia.
Qed.

(** X17. A larger amount never looks safer: with every other field
    unchanged, raising an integer amount never lowers the score or the
    tier, in any of the three engines. *)
Theorem score_monotone_in_amount (float_repr : float → string)
    (d : gmap string value) (n n' : Z) :
  n <= n' →
  (∀ r r',
     App.calculate_final_score float_repr (Dict (<["amount" := VInt n]> d)) = Ok r →
     App.calculate_final_score float_repr (Dict (<["amount" := VInt n']> d)) = Ok r' →
     App.risk_score r <= App.risk_score r'
     ∧ tier_rank (App.risk_level r) <= tier_rank (App.risk_level r'))
  ∧ (∀ r r',
     Demo.calculate_final_score (Dict (<["amount" := VInt n]> d)) = Ok r →
     Demo.calculate_final_score (Dict (<["amount" := VInt n']> d)) = Ok r' →
     Demo.risk_score r <= Demo.risk_score r'
     ∧ tier_rank (Demo.risk_level r) <= tier_rank (Demo.risk_level r'))
  ∧ (∀ r r',
     Train.predict Train.init (Dict (<["amount" := VInt n]> d)) = Ok r →
     Train.predict Train.init (Dict (<["amount" := VInt n']> d)) = Ok r' →
     Train.risk_score r <= Train.risk_score r'
     ∧ tier_rank (Train.risk_level r) <= tier_rank (Train.risk_level r')).
Proof.
  intros Hn. split; [|split]; intros r r' H H'.
  - apply app_calculate_Ok in H as (raw & l & Hraw & Hs & Hl & _).
    apply app_calculate_Ok in H' as (raw' & l' & Hraw' & Hs' & Hl' & _).
    pose proof (app_raw_monotone_in_amount _ _ _ _ _ _ _ _ Hn Hraw Hraw') as Hle.
    split; [lia|].
    replace (App.risk_level r) with (App.classify (Z.min raw 100)).1 by (by rewrite <- Hl).
    replace (App.risk_level r') with (App.classify (Z.min raw' 100)).1 by (by rewrite <- Hl').
    apply classify_rank_monotone. lia.
  - apply demo_calculate_Ok in H as (raw & l & Hraw & Hs & Hl & _).
    apply demo_calculate_Ok in H' as (raw' & l' & Hraw' & Hs' & Hl' & _).
    pose proof (proj1 (rules_raw_monotone_in_amount _ _ _ _ _ _ _ Hn) Hraw Hraw') as Hle.
    split; [lia|].
    replace (Demo.risk_level r) with (Demo.classify (Z.min raw 100)).1 by (by rewrite <- Hl).
    replace (Demo.risk_level r') with (Demo.classify (Z.min raw' 100)).1 by (by rewrite <- Hl').
    apply classify_rank_monotone. lia.
  - apply train_predict_Ok in H as (raw & l & Hraw & Hs & Hl & _).
    apply train_predict_Ok in H' as (raw' & l' & Hraw' & Hs' & Hl' & _).
    pose proof (proj2 (rules_raw_monotone_in_amount _ _ _ _ _ _ _ Hn) Hraw Hraw') as Hle.
    split; [lia|].
    replace (Train.risk_level r) with (Train.classify Train.init (Z.min raw 100)).1
      by (by rewrite <- Hl).
    replace (Train.risk_level r') with (Train.classify Train.init (Z.min raw' 100)).1
      by (by rewrite <- Hl').
    apply classify_rank_monotone. lia.
Qed.

Lemma score_monotone_in_amount_witness :
  ∃ r r',
    Demo.calculate_final_score (Dict (<["amount" := VInt 20000]> normal_transaction)) = Ok r
    ∧ Demo.calculate_final_score (Dict (<["amount" := VInt 60000]> normal_transaction)) = Ok r'
    ∧ Demo.risk_score r <= Demo.risk_score r'.
Proof.
  assert (Hn : 20000 <= 60000) by lia.
  destruct (score_monotone_in_amount (fun _ => "") normal_transaction _ _ Hn)
    as (_ & Hd & _).
  do 2 eexists. split; [vm_compute; reflexivity|]. split; [vm_compute; reflexivity|].
  apply Hd; vm_compute; reflexivity.
Defined.

(** ** The trained detector on its own *)

Lemma train_predict_is_ok_fields (d : gmap string value) :
  is_ok (Train.predict Train.init (Dict d))
  = number_or_absent d "amount" && number_or_absent d "hour"
    && number_or_absent d "amount_log".
Proof.
  rewrite train_predict_is_ok. unfold Train.raw_score.
  rewrite apply_rules_is_ok.
  cbn [forallb Train.init Train.rules condition Train.r_amount_gt_50000
       Train.r_amount_gt_10000 Train.r_hour_lt_6 Train.r_hour_gt_22
       Train.r_amount_log_gt_12].
  unfold Train._check_amount_gt_50000, Train._check_amount_gt_10000,
    Train._check_hour_lt_6, Train._check_hour_gt_22,
    Train._check_amount_log_gt_12.
  rewrite !get_Dict. unfold number_or_absent.
  destruct (d !! "amount") as [[]|], (d !! "hour") as [[]|],
    (d !! "amount_log") as [[]|]; reflexivity.
Qed.

(** X18. The trained detector returns a result exactly when each of
    [amount], [hour] and [amount_log] is missing or a number, and a
    missing field counts as its default (amount 0, hour 12,
    amount_log 0); the fields [txns_last_1h] and [is_new_recipient],
    which it never reads, cannot change its result. *)
Theorem trained_detector_fields (d : gmap string value) :
  is_ok (Train.predict Train.init (Dict d))
  = number_or_absent d "amount" && number_or_absent d "hour"
    && number_or_absent d "amount_log"
  ∧ (∀ k dv,
       In (k, dv) [("amount", VInt 0); ("hour", VInt 12); ("amount_log", VInt 0)] →
       d !! k = None →
       Train.predict Train.init (Dict (<[k := dv]> d))
       = Train.predict Train.init (Dict d))
  ∧ (∀ k v, k = "txns_last_1h" ∨ k = "is_new_recipient" →
       Train.predict Train.init (Dict (<[k := v]> d))
       = Train.predict Train.init (Dict d)).
Proof.
  split; [apply train_predict_is_ok_fields|].
  assert (Hunfold : ∀ d',
    (∀ k' dv', In (k', dv')
        [("amount", VInt 0); ("hour", VInt 12); ("amount_log", VInt 0)] →
      get (Dict d') k' dv' = get (Dict d) k' dv') →
    Train.predict Train.init (Dict d') = Train.predict Train.init (Dict d)).
  { intros d' Hget. unfold Train.predict, Train.raw_score.
    cbn [Train.init Train.rules apply_rules condition points description
         Train.r_amount_gt_50000 Train.r_amount_gt_10000 Train.r_hour_lt_6
         Train.r_hour_gt_22 Train.r_amount_log_gt_12].
    unfold Train._check_amount_gt_50000, Train._check_amount_gt_10000,
      Train._check_hour_lt_6, Train._check_hour_gt_22,
      Train._check_amount_log_gt_12.
    rewrite !Hget by (cbv [In]; tauto). reflexivity. }
  split.
  - intros k dv Hin Hk. apply Hunfold. intros k' dv' Hin'.
    apply get_insert_absent; [done|]. intros ->.
    cbv [In] in Hin, Hin'. intuition congruence.
  - intros k v Hk. apply Hunfold. intros k' dv' Hin'.
    rewrite !get_Dict. rewrite lookup_insert_ne; [done|].
    cbv [In] in Hin'. intuition congruence.
Qed.

Lemma trained_detector_fields_witness :
  Train.predict Train.init (Dict (<["hour" := VInt 12]> large_transfer))
  = Train.predict Train.init (Dict large_transfer).
Proof.
  apply (proj1 (proj2 (trained_detector_fields large_transfer)) "hour" (VInt 12)).
  - cbv [In]; tauto.
  - reflexivity.
Defined.

(** ** The order of the rules *)

Lemma sum_points_filter_Permutation (f : rule → bool) rs rs' :
  Permutation rs rs' →
  sum_points (List.filter f rs) = sum_points (List.filter f rs').
Proof.
  induction 1 as [|r rs rs' _ IH|r1 r2 rs|rs1 rs2 rs3 _ IH1 _ IH2]; simpl.
  - done.
  - destruct (f r); [rewrite !sum_points_cons|]; lia.
  - destruct (f r1), (f r2); rewrite ?sum_points_cons; lia.
  - lia.
Qed.

Lemma List_filter_Permutation {A} (f : A → bool) (l l' : list A) :
  Permutation l l' → Permutation (List.filter f l) (List.filter f l').
Proof.
  induction 1 as [|x l l' _ IH|x y l|l1 l2 l3 _ IH1 _ IH2]; simpl.
  - done.
  - destruct (f x); [by constructor | done].
  - destruct (f x), (f y); (done || by constructor).
  - by etransitivity.
Qed.

Lemma forallb_Permutation {A} (f : A → bool) (l l' : list A) :
  Permutation l l' → forallb f l = forallb f l'.
Proof.
  induction 1 as [|x l l' _ IH|x y l|l1 l2 l3 _ IH1 _ IH2]; simpl.
  - done.
  - by rewrite IH.
  - by destruct (f x), (f y).
  - congruence.
Qed.

(** X19. For any detector, the order in which its rules are listed
    does not matter to the verdict: two detectors with the same
    thresholds whose rule lists are permutations of each other fail on
    the same transactions and return the same score, tier and action;
    only the order of [rules_triggered] follows the list. *)
Theorem rule_order_is_irrelevant (self self' : Train.RuleBasedFraudDetector)
    (t : pyobj) :
  Permutation (Train.rules self) (Train.rules self') →
  Train.thresholds self = Train.thresholds self' →
  is_ok (Train.predict self t) = is_ok (Train.predict self' t)
  ∧ ∀ r r', Train.predict self t = Ok r → Train.predict self' t = Ok r' →
      Train.risk_score r = Train.risk_score r'
      ∧ Train.risk_level r = Train.risk_level r'
      ∧ Train.suggested_action r = Train.suggested_action r'
      ∧ Permutation (Train.rules_triggered r) (Train.rules_triggered r').
Proof.
  intros Hperm Hth. split.
  - rewrite !train_predict_is_ok. unfold Train.raw_score.
    rewrite !apply_rules_is_ok. by apply forallb_Permutation.
  - intros r r' H H'.
    apply train_predict_Ok in H as (raw & l & Hraw & Hs & Hl & Hr).
    apply train_predict_Ok in H' as (raw' & l' & Hraw' & Hs' & Hl' & Hr').
    apply apply_rules_Ok in Hraw as [-> ->]. apply apply_rules_Ok in Hraw' as [-> ->].
    rewrite (sum_points_filter_Permutation _ _ _ Hperm) in Hs, Hl.
    unfold Train.classify in Hl, Hl'. rewrite Hth in Hl.
    rewrite <- Hl' in Hl. inversion Hl.
    split; [congruence|]. split; [done|]. split; [done|].
    rewrite Hr, Hr'. cbn [app].
    apply Permutation_map. by apply List_filter_Permutation.
Qed.

Lemma rule_order_is_irrelevant_witness :
  ∃ r r',
    Train.predict Train.init (Dict micropay_scam) = Ok r
    ∧ Train.predict {| Train.rules := rev (Train.rules Train.init);
                       Train.thresholds := Train.thresholds Train.init |}
        (Dict micropay_scam) = Ok r'
    ∧ Train.risk_score r = Train.risk_score r'.
Proof.
  assert (Hperm : Permutation (Train.rules Train.init)
            (Train.rules {| Train.rules := rev (Train.rules Train.init);
                            Train.thresholds := Train.thresholds Train.init |}))
    by apply Permutation_rev.
  destruct (rule_order_is_irrelevant Train.init _ (Dict micropay_scam) Hperm eq_refl)
    as [_ H].
  do 2 eexists. split; [vm_compute; reflexivity|]. split; [vm_compute; reflexivity|].
  apply H; vm_compute; reflexivity.
Defined.
